(** * Aix-DB web views: the conversation-record dialog and the chat composer

    A shallow embedding of the two [<script setup>] blocks of
    [web/src/views/TableModal.vue]:

    - the record-management dialog ([fetchData], [close], [handleCheck],
      [deleteSelectedData], [handlePageChange], [handlePageSizeChange] and
      the [watch] on [props.show]);
    - the chat composer ([handleEnter], [handleChipClick], [clearMode] and
      the [@keydown.enter.prevent] binding of its input).

    Reactive [ref]s become fields of a state record.  Calls to the remote
    API, [emit] and [console.error] are recorded in a trace; the remote API
    itself is a parameter of the development.  Exceptions are explicit
    completions, so that [try]/[catch]/[finally] can be written as in the
    source.  A handler is run to its end: what happens when a second
    handler starts while a first one awaits is not modelled. *)

From Stdlib Require Import ZArith NArith List String Ascii Bool Lia.
Import ListNotations.
Open Scope string_scope.
Open Scope list_scope.
Set Warnings "-register-all".

(** ** JavaScript values *)

(** The values that [res.json()] can deliver, together with [undefined]
    (what reading an absent property yields).  Numbers are restricted to
    the integers: every number the views look at is a count.  An object is
    its list of own properties; reading a property takes the first binding
    of the key. *)
Inductive JsValue : Type :=
| JsUndefined
| JsNull
| JsBool (b : bool)
| JsNumber (n : Z)
| JsString (s : string)
| JsArray (items : list JsValue)
| JsObject (fields : list (string * JsValue)).

(** A completion: the evaluation either returns or throws. *)
Inductive Completion (A : Type) : Type :=
| Normal (a : A)
| Throw (error : JsValue).
Arguments Normal {A} a.
Arguments Throw {A} error.

(** [ToBoolean]: [undefined], [null], [false], [0] and the empty string
    are falsy, everything else (every array and object included) is
    truthy. *)
Definition truthy (v : JsValue) : bool :=
  match v with
  | JsUndefined | JsNull => false
  | JsBool b => b
  | JsNumber n => negb (n =? 0)%Z
  | JsString s => negb (s =? "")
  | JsArray _ | JsObject _ => true
  end.

(** [a || b] *)
Definition js_or (a b : JsValue) : JsValue :=
  if truthy a then a else b.

Fixpoint own_property (key : string) (fields : list (string * JsValue))
  : option JsValue :=
  match fields with
  | [] => None
  | (k, v) :: rest => if k =? key then Some v else own_property key rest
  end.

(** [v.key] for the keys the views read ([data], [records], [total_count],
    [total_pages]): none of them is defined on a prototype, so only an
    object can have one; reading from [undefined] or [null] throws. *)
Definition get_prop (v : JsValue) (key : string) : Completion JsValue :=
  match v with
  | JsUndefined | JsNull => Throw (JsString "TypeError")
  | JsObject fields =>
      match own_property key fields with
      | Some x => Normal x
      | None => Normal JsUndefined
      end
  | _ => Normal JsUndefined
  end.

(** ** Strings of the composer

    The text of the input is a sequence of UTF-16 code units, so that
    [String.prototype.trim] can be written with the white space of the
    language rather than that of ASCII. *)
Definition JsText : Type := list N.

Definition text_of_ascii (s : string) : JsText :=
  map N_of_ascii (list_ascii_of_string s).

(** WhiteSpace and LineTerminator code points of ECMAScript. *)
Definition is_white_space (c : N) : bool :=
  ((c =? 9) || (c =? 10) || (c =? 11) || (c =? 12) || (c =? 13)
   || (c =? 32) || (c =? 160) || (c =? 5760)
   || ((8192 <=? c) && (c <=? 8202))
   || (c =? 8232) || (c =? 8233) || (c =? 8239) || (c =? 8287)
   || (c =? 12288) || (c =? 65279))%N.

Fixpoint trim_start (s : JsText) : JsText :=
  match s with
  | [] => []
  | c :: rest => if is_white_space c then trim_start rest else s
  end.

Definition trim_end (s : JsText) : JsText :=
  rev (trim_start (rev s)).

(** [s.trim()] *)
Definition trim (s : JsText) : JsText :=
  trim_end (trim_start s).

(** [!s] for a string [s] *)
Definition text_is_empty (s : JsText) : bool :=
  match s with
  | [] => true
  | _ :: _ => false
  end.

(** ** The chat composer *)
Module Composer.

Record Chip : Type := {
  icon : string;
  label : string;
  value : string;
  color : string
}.

Definition chips : list Chip :=
  [ {| icon := "i-hugeicons:ai-chat-02"; label := "智能问答";
       value := "COMMON_QA"; color := "#3b82f6" |};
    {| icon := "i-hugeicons:database-01"; label := "数据问答";
       value := "DATABASE_QA"; color := "#10b981" |};
    {| icon := "i-hugeicons:table-01"; label := "表格问答";
       value := "FILEDATA_QA"; color := "#f59e0b" |};
    {| icon := "i-hugeicons:search-02"; label := "深度搜索";
       value := "REPORT_QA"; color := "#8b5cf6" |} ].

(** [inputValue] and [selectedMode] *)
Record State : Type := {
  inputValue : JsText;
  selectedMode : option Chip
}.

(** The payload of [emit('submit', ...)]. *)
Record Submission : Type := {
  text : JsText;
  mode : string
}.

(** The fields of the DOM event that the handlers read or set. *)
Record KeyboardEvent : Type := {
  key : string;
  shiftKey : bool;
  defaultPrevented : bool
}.

(** [selectedMode.value?.value || 'COMMON_QA'] *)
Definition mode_or_default (m : option Chip) : string :=
  match m with
  | None => "COMMON_QA"
  | Some chip => if value chip =? "" then "COMMON_QA" else value chip
  end.

(** [e && e.shiftKey] *)
Definition shift_held (e : option KeyboardEvent) : bool :=
  match e with
  | None => false
  | Some ev => shiftKey ev
  end.

(** [handleEnter]: the new state and the [submit] events emitted. *)
Definition handleEnter (e : option KeyboardEvent) (st : State)
  : State * list Submission :=
  if shift_held e then (st, [])
  else if text_is_empty (trim (inputValue st)) then (st, [])
  else
    ({| inputValue := []; selectedMode := selectedMode st |},
     [ {| text := inputValue st;
          mode := mode_or_default (selectedMode st) |} ]).

Definition handleChipClick (chip : Chip) (st : State) : State :=
  {| inputValue := inputValue st; selectedMode := Some chip |}.

Definition clearMode (st : State) : State :=
  {| inputValue := inputValue st; selectedMode := None |}.

(** [v-model:value="inputValue"]: the input control writes what is typed. *)
Definition update_value (v : JsText) (st : State) : State :=
  {| inputValue := v; selectedMode := selectedMode st |}.

(** *** The key binding [@keydown.enter.prevent="handleEnter"]

    The template compiler turns the directive into
    [withKeys(withModifiers(handleEnter, ['prevent']), ['enter'])]:
    [withKeys] lets only the Enter key through, [withModifiers] calls
    [event.preventDefault()] and then the handler. *)
Definition prevent_default (ev : KeyboardEvent) : KeyboardEvent :=
  {| key := key ev; shiftKey := shiftKey ev; defaultPrevented := true |}.

Definition keydown_enter_prevent (ev : KeyboardEvent) (st : State)
  : KeyboardEvent * State * list Submission :=
  if key ev =? "Enter" then
    let ev' := prevent_default ev in
    let (st', out) := handleEnter (Some ev') st in
    (ev', st', out)
  else (ev, st, []).

(** The default action of the text area for an Enter key press that no
    listener cancelled: a line feed is inserted at the caret. *)
Definition insert_line_feed (caret : nat) (s : JsText) : JsText :=
  (firstn caret s ++ 10%N :: skipn caret s)%list.

(** An Enter key press in the input: the listener runs first, then the
    default action unless it was prevented. *)
Definition press_enter (shift : bool) (caret : nat) (st : State)
  : State * list Submission :=
  let ev := {| key := "Enter"; shiftKey := shift;
               defaultPrevented := false |} in
  let '(ev', st', out) := keydown_enter_prevent ev st in
  if defaultPrevented ev' then (st', out)
  else (update_value (insert_line_feed caret (inputValue st')) st', out).

End Composer.

(** ** The record-management dialog *)
Module TableModal.

(** [pagination]: [page] and [pageSize] come from the pagination control,
    [total] and [pageCount] from the response body. *)
Record Pagination : Type := {
  page : Z;
  pageSize : Z;
  total : JsValue;
  pageCount : JsValue
}.

(** The [ref]s of the component. *)
Record State : Type := {
  localShow : bool;
  tableData : JsValue;
  loading : bool;
  checkedRowKeys : list JsValue;
  pagination : Pagination
}.

(** What the component reads of a fetch response; [json] is the outcome
    of [await res.json()]. *)
Record Response : Type := {
  ok : bool;
  status : Z;
  json : Completion JsValue
}.

(** The effects a run leaves outside the component. *)
Inductive Effect : Type :=
| QueryUserQaRecord (page pageSize : Z)
| DeleteUserRecord (keys : list JsValue)
| EmitUpdateShow (value : bool)
| ConsoleError (message : string) (argument : JsValue).

Definition set_localShow (b : bool) (st : State) : State :=
  {| localShow := b; tableData := tableData st; loading := loading st;
     checkedRowKeys := checkedRowKeys st; pagination := pagination st |}.

Definition set_tableData (v : JsValue) (st : State) : State :=
  {| localShow := localShow st; tableData := v; loading := loading st;
     checkedRowKeys := checkedRowKeys st; pagination := pagination st |}.

Definition set_loading (b : bool) (st : State) : State :=
  {| localShow := localShow st; tableData := tableData st; loading := b;
     checkedRowKeys := checkedRowKeys st; pagination := pagination st |}.

Definition set_checkedRowKeys (keys : list JsValue) (st : State) : State :=
  {| localShow := localShow st; tableData := tableData st;
     loading := loading st; checkedRowKeys := keys;
     pagination := pagination st |}.

Definition set_pagination (p : Pagination) (st : State) : State :=
  {| localShow := localShow st; tableData := tableData st;
     loading := loading st; checkedRowKeys := checkedRowKeys st;
     pagination := p |}.

Definition set_page (n : Z) (st : State) : State :=
  set_pagination
    {| page := n; pageSize := pageSize (pagination st);
       total := total (pagination st);
       pageCount := pageCount (pagination st) |} st.

Definition set_pageSize (n : Z) (st : State) : State :=
  set_pagination
    {| page := page (pagination st); pageSize := n;
       total := total (pagination st);
       pageCount := pageCount (pagination st) |} st.

Definition set_total (v : JsValue) (st : State) : State :=
  set_pagination
    {| page := page (pagination st); pageSize := pageSize (pagination st);
       total := v; pageCount := pageCount (pagination st) |} st.

Definition set_pageCount (v : JsValue) (st : State) : State :=
  set_pagination
    {| page := page (pagination st); pageSize := pageSize (pagination st);
       total := total (pagination st); pageCount := v |} st.

(** The component as it is set up: [localShow] starts as [props.show]. *)
Definition initial_state (show : bool) : State :=
  {| localShow := show;
     tableData := JsArray [];
     loading := false;
     checkedRowKeys := [];
     pagination := {| page := 1; pageSize := 8;
                      total := JsNumber 0; pageCount := JsNumber 0 |} |}.

Section WithApi.

(** The remote API ([GlobalAPI]): each call answers from the state of the
    server and may change it; an awaited call that is rejected throws. *)
Context {Server : Type}.
Variable query_user_qa_record :
  Z -> Z -> Server -> Completion Response * Server.
Variable delete_user_record :
  list JsValue -> Server -> Completion Response * Server.

(** The component, the server it talks to, and the effects so far, most
    recent first. *)
Record Machine : Type := {
  view : State;
  server : Server;
  trace : list Effect
}.

(** Computations over a machine that return or throw; the state reached
    is kept in both cases. *)
Definition M (A : Type) : Type := Machine -> Completion A * Machine.

Definition ret {A : Type} (a : A) : M A := fun m => (Normal a, m).

Definition bind {A B : Type} (c : M A) (k : A -> M B) : M B :=
  fun m =>
    match c m with
    | (Normal a, m') => k a m'
    | (Throw e, m') => (Throw e, m')
    end.

Definition lift {A : Type} (r : Completion A) : M A := fun m => (r, m).

Definition get_view : M State := fun m => (Normal (view m), m).

Definition modify_view (f : State -> State) : M unit :=
  fun m =>
    (Normal tt, {| view := f (view m); server := server m; trace := trace m |}).

Definition log (e : Effect) : M unit :=
  fun m =>
    (Normal tt,
     {| view := view m; server := server m; trace := e :: trace m |}).

(** [await GlobalAPI.query_user_qa_record(page, pageSize)] *)
Definition await_query (p ps : Z) : M Response :=
  fun m =>
    let (r, s) := query_user_qa_record p ps (server m) in
    (r, {| view := view m; server := s;
           trace := QueryUserQaRecord p ps :: trace m |}).

(** [await GlobalAPI.delete_user_record(keys)] *)
Definition await_delete (keys : list JsValue) : M Response :=
  fun m =>
    let (r, s) := delete_user_record keys (server m) in
    (r, {| view := view m; server := s;
           trace := DeleteUserRecord keys :: trace m |}).

(** [try { body } catch (error) { handler } finally { finalizer }] *)
Definition try_catch_finally {A : Type}
  (body : M A) (handler : JsValue -> M A) (finalizer : M unit) : M A :=
  fun m =>
    let (r, m1) := body m in
    let (r', m2) :=
      match r with
      | Normal a => (Normal a, m1)
      | Throw e => handler e m1
      end in
    match finalizer m2 with
    | (Normal _, m3) => (r', m3)
    | (Throw e, m3) => (Throw e, m3)
    end.

(** A call to an async function whose promise is dropped: the caller goes
    on whatever the outcome.  The callee is run to its end here, that is,
    no other handler runs while it waits. *)
Definition not_awaited (c : M unit) : M unit :=
  fun m => let (_, m') := c m in (Normal tt, m').

(** [a && b], with [b] evaluated only if [a] is truthy *)
Definition js_and (a : JsValue) (b : M JsValue) : M JsValue :=
  if truthy a then b else ret a.

End WithApi.

Declare Scope js_scope.
Delimit Scope js_scope with js.
Notation "x <- c ;; k" := (bind c (fun x => k))
  (at level 61, c at next level, right associativity) : js_scope.
Notation "c ;; k" := (bind c (fun _ => k))
  (at level 61, right associativity) : js_scope.
Open Scope js_scope.

Section Component.

Context {Server : Type}.
Variable query_user_qa_record :
  Z -> Z -> Server -> Completion Response * Server.
Variable delete_user_record :
  list JsValue -> Server -> Completion Response * Server.

(** The three assignments that every failure branch of [fetchData] makes. *)
Definition reset_table : M (Server := Server) unit :=
  modify_view (set_tableData (JsArray [])) ;;
  modify_view (set_total (JsNumber 0)) ;;
  modify_view (set_pageCount (JsNumber 0)).

Definition fetchData : M unit :=
  modify_view (set_loading true) ;;
  try_catch_finally
    (st <- get_view ;;
     res <- await_query query_user_qa_record
              (page (pagination st)) (pageSize (pagination st)) ;;
     if ok res then
       data <- lift (json res) ;;
       envelope <- js_and data (lift (get_prop data "data")) ;;
       if truthy envelope then
         d1 <- lift (get_prop data "data") ;;
         records <- lift (get_prop d1 "records") ;;
         modify_view (set_tableData (js_or records (JsArray []))) ;;
         d2 <- lift (get_prop data "data") ;;
         total_count <- lift (get_prop d2 "total_count") ;;
         modify_view (set_total (js_or total_count (JsNumber 0))) ;;
         d3 <- lift (get_prop data "data") ;;
         total_pages <- lift (get_prop d3 "total_pages") ;;
         modify_view (set_pageCount (js_or total_pages (JsNumber 0)))
       else
         log (ConsoleError "Unexpected data format:" data) ;;
         reset_table
     else
       log (ConsoleError "API request failed with status:"
                         (JsNumber (status res))) ;;
       reset_table)
    (fun error =>
       log (ConsoleError "Error fetching data:" error) ;;
       reset_table)
    (modify_view (set_loading false)).

Definition close : M (Server := Server) unit :=
  modify_view (set_localShow false) ;;
  log (EmitUpdateShow false) ;;
  modify_view (set_page 1).

Definition handleCheck (rowKeys : list JsValue) : M (Server := Server) unit :=
  modify_view (set_checkedRowKeys rowKeys).

Definition deleteSelectedData : M unit :=
  st <- get_view ;;
  if (List.length (checkedRowKeys st) =? 0)%nat then ret tt
  else
    res <- await_delete delete_user_record (checkedRowKeys st) ;;
    if ok res then not_awaited fetchData else ret tt.

Definition handlePageChange (p : Z) : M unit :=
  modify_view (set_page p) ;;
  not_awaited fetchData.

Definition handlePageSizeChange (newPageSize : Z) : M unit :=
  modify_view (set_pageSize newPageSize) ;;
  modify_view (set_page 1) ;;
  not_awaited fetchData.

(** The callback of [watch(() => props.show, ...)]. *)
Definition watch_show (newVal : bool) : M unit :=
  st <- get_view ;;
  if negb (Bool.eqb newVal (localShow st)) then
    modify_view (set_localShow newVal) ;;
    if newVal then not_awaited fetchData else ret tt
  else ret tt.

End Component.

(** The requests a trace holds, most recent first. *)
Fixpoint queries (t : list Effect) : list (Z * Z) :=
  match t with
  | [] => []
  | QueryUserQaRecord p ps :: rest => (p, ps) :: queries rest
  | _ :: rest => queries rest
  end.

Fixpoint deletions (t : list Effect) : list (list JsValue) :=
  match t with
  | [] => []
  | DeleteUserRecord keys :: rest => keys :: deletions rest
  | _ :: rest => deletions rest
  end.

(** [v.length] of an array *)
Definition array_length (v : JsValue) : option nat :=
  match v with
  | JsArray items => Some (List.length items)
  | _ => None
  end.

(** *** Vocabulary of the statements *)

(** The body carries a data envelope with an array of records and the two
    counts. *)
Definition well_formed_envelope
  (data : JsValue) (records : list JsValue) (total_count total_pages : Z)
  : Prop :=
  match data with
  | JsObject fields =>
      match own_property "data" fields with
      | Some (JsObject inner) =>
          own_property "records" inner = Some (JsArray records) /\
          own_property "total_count" inner = Some (JsNumber total_count) /\
          own_property "total_pages" inner = Some (JsNumber total_pages)
      | _ => False
      end
  | _ => False
  end.

(** The body has no data envelope: it is not an object, or its [data]
    property is absent, [null] or another falsy value. *)
Definition missing_data_envelope (data : JsValue) : Prop :=
  match data with
  | JsObject fields =>
      match own_property "data" fields with
      | Some d => truthy d = false
      | None => True
      end
  | _ => True
  end.

(** The outcomes of the query that count as a failed fetch: the call is
    rejected, the status is not ok, the body cannot be read, or the body
    has no data envelope. *)
Inductive FetchFailure : Completion Response -> Prop :=
| call_rejected (e : JsValue) : FetchFailure (Throw e)
| status_not_ok (res : Response) :
    ok res = false -> FetchFailure (Normal res)
| body_unreadable (res : Response) (e : JsValue) :
    ok res = true -> json res = Throw e -> FetchFailure (Normal res)
| envelope_missing (res : Response) (data : JsValue) :
    ok res = true -> json res = Normal data ->
    missing_data_envelope data -> FetchFailure (Normal res).

(** The bulk delete succeeded: the call returned and its status is ok. *)
Definition delete_succeeded (r : Completion Response) : bool :=
  match r with
  | Normal res => ok res
  | Throw _ => false
  end.

(** The machine in which [deleteSelectedData] goes on after its call. *)
Definition after_delete {Server : Type}
  (delete_user_record : list JsValue -> Server -> Completion Response * Server)
  (m : Machine) : Machine :=
  {| view := view m;
     server := snd (delete_user_record (checkedRowKeys (view m)) (server m));
     trace := DeleteUserRecord (checkedRowKeys (view m)) :: trace m |}.

(** The query that [fetchData] issues from a machine, and its outcome. *)
Definition requested {Server : Type}
  (query_user_qa_record : Z -> Z -> Server -> Completion Response * Server)
  (m : Machine) : Completion Response * Server :=
  query_user_qa_record (page (pagination (view m)))
    (pageSize (pagination (view m))) (server m).

(** The machine in which [handlePageSizeChange] starts its fetch. *)
Definition resized {Server : Type} (newPageSize : Z)
  (m : Machine (Server := Server))
  : Machine :=
  {| view := set_page 1 (set_pageSize newPageSize (view m));
     server := server m;
     trace := trace m |}.

(** *** Proof automation: running the monad and splitting on what the
    response holds *)
Ltac unfold_machine :=
  unfold fetchData, try_catch_finally, bind, await_query, await_delete,
    reset_table, js_and, modify_view, get_view, log, lift, ret, get_prop,
    js_or, requested.

Ltac split_cases :=
  repeat (cbn;
    match goal with
    | |- context [ok ?r] => destruct (ok r)
    | |- context [json ?r] => destruct (json r)
    | |- context [own_property ?k ?f] => destruct (own_property k f)
    | |- context [(?n =? 0)%Z] => destruct (n =? 0)%Z
    | |- context [(?n =? "")%string] => destruct (n =? "")%string
    | |- context [match ?v with _ => _ end] => is_var v; destruct v
    end).

End TableModal.

(** ** Concrete collaborators and states, for the examples *)
Module Examples.
Import TableModal.

Definition record (chat_id : Z) (question : string) : JsValue :=
  JsObject [("chat_id", JsNumber chat_id); ("question", JsString question)].

(** [{ data: { records, total_count, total_pages } }] *)
Definition envelope (records : list JsValue) (total_count total_pages : Z)
  : JsValue :=
  JsObject
    [("data",
      JsObject [("records", JsArray records);
                ("total_count", JsNumber total_count);
                ("total_pages", JsNumber total_pages)])].

Definition ok_response (body : JsValue) : Response :=
  {| ok := true; status := 200; json := Normal body |}.

Definition error_response : Response :=
  {| ok := false; status := 500; json := Normal JsNull |}.

(** A server that gives the same answer to every query. *)
Definition canned_query (r : Completion Response)
  : Z -> Z -> unit -> Completion Response * unit :=
  fun _ _ s => (r, s).

Definition canned_delete (r : Completion Response)
  : list JsValue -> unit -> Completion Response * unit :=
  fun _ s => (r, s).

(** A server that holds the records and cuts the requested page out of
    them. *)
Definition paged_query (p ps : Z) (all : list JsValue)
  : Completion Response * list JsValue :=
  (Normal
     (ok_response
        (envelope
           (firstn (Z.to_nat ps) (skipn (Z.to_nat ((p - 1) * ps)) all))
           (Z.of_nat (List.length all))
           ((Z.of_nat (List.length all) + ps - 1) / ps))),
   all).

Definition three_records : list JsValue :=
  [record 1 "first"; record 2 "second"; record 3 "third"].

Definition opened (ps : Z) : State :=
  set_pageSize ps (initial_state true).

Definition on_unit_server (st : State) : Machine (Server := unit) :=
  {| view := st; server := tt; trace := [] |}.

Definition on_records (st : State) (all : list JsValue)
  : Machine (Server := list JsValue) :=
  {| view := st; server := all; trace := [] |}.

(** The dialog on page 3 with one row checked. *)
Definition one_checked : State :=
  set_checkedRowKeys [JsNumber 7] (set_page 3 (opened 8)).

(** A server with no records, one that answers with status 500, and one
    that ignores the page size and sends all its three records. *)
Definition empty_query : Z -> Z -> unit -> Completion Response * unit :=
  canned_query (Normal (ok_response (envelope [] 0 0))).

Definition refusing_query : Z -> Z -> unit -> Completion Response * unit :=
  canned_query (Normal error_response).

Definition unpaged_query : Z -> Z -> unit -> Completion Response * unit :=
  canned_query (Normal (ok_response (envelope three_records 3 2))).

Definition accepting_delete
  : list JsValue -> unit -> Completion Response * unit :=
  canned_delete (Normal (ok_response JsNull)).

Definition refusing_delete
  : list JsValue -> unit -> Completion Response * unit :=
  canned_delete (Normal error_response).

(** A [data] envelope with a total count and nothing else, and a server
    that sends it. *)
Definition count_only : JsValue := JsObject [("total_count", JsNumber 5)].

Definition count_only_query : Z -> Z -> unit -> Completion Response * unit :=
  canned_query (Normal (ok_response (JsObject [("data", count_only)]))).

(** The dialog just opened, with the page size of the source. *)
Definition fresh : Machine (Server := unit) := on_unit_server (opened 8).

Definition typed (s : string) : Composer.State :=
  {| Composer.inputValue := text_of_ascii s;
     Composer.selectedMode := None |}.

(** A click on the chip at index [i]. *)
Definition click_chip (i : nat) (st : Composer.State) : Composer.State :=
  match nth_error Composer.chips i with
  | Some chip => Composer.handleChipClick chip st
  | None => st
  end.

(** Blanks only: space, tab, line feed, ideographic space. *)
Definition blanks : JsText := [32; 9; 10; 12288]%N.

End Examples.

(** ** The cells of the table

    What the [render] functions of [columns] put into a cell, and the
    [rowKey] of a row.  Of the markup only the text child is kept. *)
Module Columns.



(** [rowKey = (row) => row.chat_id] *)
Definition rowKey (row : JsValue) : Completion JsValue :=
  get_prop row "chat_id".

(** [v.key] of a value that is neither [undefined] nor [null]. *)
Definition read (v : JsValue) (key : string) : JsValue :=
  match get_prop v key with
  | Normal x => x
  | Throw _ => JsUndefined
  end.

(** A value other than [undefined] and [null]. *)
Definition defined (v : JsValue) : bool :=
  match v with
  | JsUndefined | JsNull => false
  | _ => true
  end.

End Columns.

(** ** The dialog under a sequence of events

    The events that the template routes to the script: the watcher on
    [props.show], the [v-model:show] of the modal, [on-after-leave], the
    checked keys of the table, the delete button, and the page and page
    size of the pagination control (a [v-model] assignment followed by the
    handler). *)
Module DialogSession.
Import TableModal.

Inductive Action : Type :=
| ShowChanged (newVal : bool)
| ModalShow (value : bool)
| AfterLeave
| Checked (rowKeys : list JsValue)
| DeleteClicked
| PageUpdated (page : Z)
| PageSizeUpdated (pageSize : Z).

Section WithApi.

Context {Server : Type}.
Variable query_user_qa_record :
  Z -> Z -> Server -> Completion Response * Server.
Variable delete_user_record :
  list JsValue -> Server -> Completion Response * Server.

Definition dispatch (a : Action) : M unit :=
  match a with
  | ShowChanged newVal => watch_show query_user_qa_record newVal
  | ModalShow value => modify_view (set_localShow value)
  | AfterLeave => close
  | Checked rowKeys => handleCheck rowKeys
  | DeleteClicked =>
      deleteSelectedData query_user_qa_record delete_user_record
  | PageUpdated p =>
      modify_view (set_page p) ;;
      handlePageChange query_user_qa_record p
  | PageSizeUpdated ps =>
      modify_view (set_pageSize ps) ;;
      handlePageSizeChange query_user_qa_record ps
  end.

(** Each event is handled to its end before the next one; a handler that
    throws does not stop the ones after it. *)
Fixpoint run (actions : list Action) (m : Machine) : Machine :=
  match actions with
  | [] => m
  | a :: rest => run rest (snd (dispatch a m))
  end.

End WithApi.

(** A machine with its component changed by [f]. *)
Definition with_view {Server : Type} (f : State -> State)
  (m : Machine (Server := Server)) : Machine :=
  {| view := f (view m); server := server m; trace := trace m |}.

(** The key lists that the table reported in a sequence of events. *)
Fixpoint checks (actions : list Action) : list (list JsValue) :=
  match actions with
  | [] => []
  | Checked rowKeys :: rest => rowKeys :: checks rest
  | _ :: rest => checks rest
  end.

(** The pages that the pagination control reported. *)
Fixpoint pages (actions : list Action) : list Z :=
  match actions with
  | [] => []
  | PageUpdated p :: rest => p :: pages rest
  | _ :: rest => pages rest
  end.

(** The component between two events: not loading, and rows and counts
    that are neither [undefined] nor [null]. *)
Definition settled (st : State) : Prop :=
  loading st = false
  /\ Columns.defined (tableData st) = true
  /\ Columns.defined (total (pagination st)) = true
  /\ Columns.defined (pageCount (pagination st)) = true.

(** The messages logged in a trace, most recent first. *)
Fixpoint errors (t : list Effect) : list (string * JsValue) :=
  match t with
  | [] => []
  | ConsoleError message argument :: rest =>
      (message, argument) :: errors rest
  | _ :: rest => errors rest
  end.

(** The values emitted as [update:show], most recent first. *)
Fixpoint shows (t : list Effect) : list bool :=
  match t with
  | [] => []
  | EmitUpdateShow value :: rest => value :: shows rest
  | _ :: rest => shows rest
  end.

End DialogSession.

(** ** The composer under a sequence of events

    What the template lets the user do: type into the input, click a chip
    (the chips are rendered only while no mode is selected), close the
    pill (rendered only while a mode is selected), press Enter in the
    input, click the send button. *)
Module ComposerSession.
Import Composer.

Inductive Action : Type :=
| Typed (value : JsText)
| ChipClicked (index : nat)
| PillClosed
| EnterPressed (shift : bool) (caret : nat)
| SendClicked (shift : bool).

(** [inputValue = ref('')], [selectedMode = ref(null)] *)
Definition initial : State :=
  {| inputValue := []; selectedMode := None |}.

Definition dispatch (a : Action) (st : State) : State * list Submission :=
  match a with
  | Typed v => (update_value v st, [])
  | ChipClicked i =>
      match selectedMode st, nth_error chips i with
      | None, Some chip => (handleChipClick chip st, [])
      | _, _ => (st, [])
      end
  | PillClosed =>
      match selectedMode st with
      | Some _ => (clearMode st, [])
      | None => (st, [])
      end
  | EnterPressed shift caret => press_enter shift caret st
  | SendClicked shift =>
      handleEnter
        (Some {| key := ""; shiftKey := shift; defaultPrevented := false |})
        st
  end.

(** The state reached and the submissions emitted, oldest first. *)
Fixpoint run (actions : list Action) (st : State)
  : State * list Submission :=
  match actions with
  | [] => (st, [])
  | a :: rest =>
      let (st1, out1) := dispatch a st in
      let (st2, out2) := run rest st1 in
      (st2, out1 ++ out2)
  end.

(** The selected mode is one of the chips, if there is one. *)
Definition mode_known (st : State) : Prop :=
  match selectedMode st with
  | None => True
  | Some chip => In chip chips
  end.

(** The texts typed in a sequence of events. *)
Fixpoint typed_values (actions : list Action) : list JsText :=
  match actions with
  | [] => []
  | Typed v :: rest => v :: typed_values rest
  | _ :: rest => typed_values rest
  end.

End ComposerSession.

(** ** Facts about the chat composer *)
Module ComposerFacts.
Import Composer Examples.

(** *** Trimming *)

Lemma trim_start_blank (s : JsText) :
  trim_start s = [] <-> forallb is_white_space s = true.
Proof.
  induction s as [|c s IH]; cbn.
  - tauto.
  - destruct (is_white_space c); cbn.
    + exact IH.
    + split; discriminate.
Qed.

Lemma trim_start_head (s : JsText) (c : N) (rest : JsText) :
  trim_start s = c :: rest -> is_white_space c = false.
Proof.
  induction s as [|x s IH]; cbn.
  - discriminate.
  - destruct (is_white_space x) eqn:Hx.
    + exact IH.
    + intros H. injection H as -> _. exact Hx.
Qed.

Lemma forallb_rev (f : N -> bool) (s : JsText) :
  forallb f (rev s) = forallb f s.
Proof.
  induction s as [|c s IH]; cbn.
  - reflexivity.
  - rewrite forallb_app, IH. cbn. rewrite andb_true_r. apply andb_comm.
Qed.

(** A text trims to the empty string exactly when it holds nothing but
    white space. *)
Lemma trim_blank (s : JsText) :
  trim s = [] <-> forallb is_white_space s = true.
Proof.
  unfold trim, trim_end. split.
  - intros H.
    assert (Hrev : trim_start (rev (trim_start s)) = []).
    { rewrite <- (rev_involutive (trim_start _)), H. reflexivity. }
    apply trim_start_blank in Hrev. rewrite forallb_rev in Hrev.
    destruct (trim_start s) as [|c rest] eqn:Hs.
    + apply trim_start_blank. exact Hs.
    + apply trim_start_head in Hs. cbn in Hrev. rewrite Hs in Hrev.
      discriminate.
  - intros H. apply trim_start_blank in H. rewrite H. reflexivity.
Qed.

(** *** [handleEnter] *)

Lemma handleEnter_shift_noop (e : option KeyboardEvent) (st : State) :
  shift_held e = true -> handleEnter e st = (st, []).
Proof. intros H. unfold handleEnter. rewrite H. reflexivity. Qed.

Lemma handleEnter_submits (e : option KeyboardEvent) (st : State) :
  shift_held e = false ->
  text_is_empty (trim (inputValue st)) = false ->
  handleEnter e st =
    ({| inputValue := []; selectedMode := selectedMode st |},
     [ {| text := inputValue st;
          mode := mode_or_default (selectedMode st) |} ]).
Proof. intros Hs Ht. unfold handleEnter. rewrite Hs, Ht. reflexivity. Qed.

(** Scenario A of the specification: a chip, a text, a submission. *)
Example database_question :
  handleEnter None
    (update_value (text_of_ascii "show sales") (click_chip 1 (typed ""))) =
  ({| inputValue := []; selectedMode := nth_error chips 1 |},
   [ {| text := text_of_ascii "show sales"; mode := "DATABASE_QA" |} ]).
Proof. reflexivity. Qed.

(** C3: a submission with a text that does not trim to the empty string
    and with no mode selected emits a record whose mode is the tag of the
    general question-answering chip, ['COMMON_QA'] in the source (the
    specification calls it GENERAL_QA); afterwards the text is the empty
    string and the mode is still unset. *)
Theorem handleEnter_default_mode (e : option KeyboardEvent) (st : State) :
  shift_held e = false ->
  text_is_empty (trim (inputValue st)) = false ->
  selectedMode st = None ->
  handleEnter e st =
    ({| inputValue := []; selectedMode := None |},
     [ {| text := inputValue st; mode := "COMMON_QA" |} ])
  /\ nth_error (map value chips) 0 = Some "COMMON_QA".
Proof.
  intros Hs Ht Hm. split; [|reflexivity].
  rewrite (handleEnter_submits e st Hs Ht), Hm. reflexivity.
Qed.

Lemma handleEnter_default_mode_witness :
  handleEnter None (typed "hello") =
    ({| inputValue := []; selectedMode := None |},
     [ {| text := inputValue (typed "hello"); mode := "COMMON_QA" |} ])
  /\ nth_error (map value chips) 0 = Some "COMMON_QA".
Proof.
  apply (handleEnter_default_mode None (typed "hello")); reflexivity.
Defined.

(** C6: when the text trims to the empty string (it is empty or holds
    white space only), [handleEnter] emits nothing and leaves the text and
    the mode as they are. *)
Theorem handleEnter_blank_noop (e : option KeyboardEvent) (st : State) :
  trim (inputValue st) = [] ->
  handleEnter e st = (st, []).
Proof.
  intros H. unfold handleEnter. rewrite H. cbn.
  destruct (shift_held e); reflexivity.
Qed.

Lemma handleEnter_blank_noop_witness :
  trim (inputValue (update_value blanks (click_chip 2 (typed "")))) = []
  /\ handleEnter None (update_value blanks (click_chip 2 (typed ""))) =
     (update_value blanks (click_chip 2 (typed "")), []).
Proof.
  split; [reflexivity|].
  apply (handleEnter_blank_noop None); reflexivity.
Defined.

(** C10: whenever [handleEnter] emits, the text of the record is the
    stored input as it is, white space at either end included: the
    trimmed text decides whether to emit and is not what is sent. *)
Theorem handleEnter_emits_verbatim
  (e : option KeyboardEvent) (st : State) (sub : Submission) :
  In sub (snd (handleEnter e st)) ->
  text sub = inputValue st.
Proof.
  unfold handleEnter.
  destruct (shift_held e); [intros []|].
  destruct (text_is_empty (trim (inputValue st))); [intros []|].
  cbn. intros [<- | []]. reflexivity.
Qed.

Lemma handleEnter_emits_verbatim_witness :
  text {| text := text_of_ascii "  hi  "; mode := "COMMON_QA" |} =
    inputValue (typed "  hi  ")
  /\ trim (inputValue (typed "  hi  ")) = text_of_ascii "hi".
Proof.
  split; [|reflexivity].
  apply (handleEnter_emits_verbatim None (typed "  hi  ")).
  cbn. left. reflexivity.
Defined.

(** *** The Enter key *)

(** With the shift key held the handler emits nothing and changes
    nothing. *)
Lemma keydown_shift_enter_no_submit (ev : KeyboardEvent) (st : State) :
  shiftKey ev = true ->
  snd (keydown_enter_prevent ev st) = [] /\
  snd (fst (keydown_enter_prevent ev st)) = st.
Proof.
  intros H. unfold keydown_enter_prevent.
  destruct (key ev =? "Enter"); [|split; reflexivity].
  rewrite handleEnter_shift_noop by exact H. split; reflexivity.
Qed.

(** The binding cancels the default action of every Enter key press, so
    the text area never inserts a line feed itself. *)
Lemma press_enter_is_handleEnter (shift : bool) (caret : nat) (st : State) :
  press_enter shift caret st =
  handleEnter
    (Some {| key := "Enter"; shiftKey := shift; defaultPrevented := true |})
    st.
Proof.
  unfold press_enter, keydown_enter_prevent. cbn.
  destruct (handleEnter _ st) as [st' out]. reflexivity.
Qed.

(** C8: pressing Enter with the shift key held on the text "a" with the
    caret at its end emits nothing and does not clear the text, but no
    line feed is inserted either: the key binding has prevented the
    default action before the handler returns. *)
Theorem press_shift_enter_inserts_no_line_feed :
  press_enter true 1 (typed "a") = (typed "a", [])
  /\ inputValue (fst (press_enter true 1 (typed "a"))) = [97%N]
  /\ insert_line_feed 1 (inputValue (typed "a")) = [97%N; 10%N].
Proof. repeat split. Qed.

End ComposerFacts.

(** ** Facts about the record-management dialog *)
Module TableModalFacts.
Import TableModal Examples.

Lemma queries_app (a b : list Effect) :
  queries (a ++ b) = queries a ++ queries b.
Proof.
  induction a as [|e a IH]; cbn; [reflexivity|].
  destruct e; cbn; rewrite IH; reflexivity.
Qed.

Lemma deletions_app (a b : list Effect) :
  deletions (a ++ b) = deletions a ++ deletions b.
Proof.
  induction a as [|e a IH]; cbn; [reflexivity|].
  destruct e; cbn; rewrite IH; reflexivity.
Qed.

Section Facts.

Context {Server : Type}.
Variable query : Z -> Z -> Server -> Completion Response * Server.
Variable delete : list JsValue -> Server -> Completion Response * Server.

(** Every run of [fetchData] returns, issues one query with the page and
    page size of the state, and touches only the rows, the two counts and
    the loading flag, which ends false. *)
Lemma fetchData_run (m : Machine) :
  exists rows count pages errors,
    fetchData query m =
      (Normal tt,
       {| view :=
            {| localShow := localShow (view m);
               tableData := rows;
               loading := false;
               checkedRowKeys := checkedRowKeys (view m);
               pagination :=
                 {| page := page (pagination (view m));
                    pageSize := pageSize (pagination (view m));
                    total := count; pageCount := pages |} |};
          server := snd (requested query m);
          trace :=
            errors ++
            QueryUserQaRecord (page (pagination (view m)))
              (pageSize (pagination (view m))) :: trace m |})
    /\ queries errors = [] /\ deletions errors = [].
Proof.
  unfold_machine. cbn.
  destruct (query _ _ _) as [[res|e] s']; cbn.
  2: { eexists _, _, _, [_]; split; [reflexivity | split; reflexivity]. }
  split_cases; cbn;
  first [ eexists _, _, _, []; split; [reflexivity | split; reflexivity]
        | eexists _, _, _, [_]; split; [reflexivity | split; reflexivity] ].
Qed.

Lemma fetchData_returns (m : Machine) : fst (fetchData query m) = Normal tt.
Proof.
  destruct (fetchData_run m) as (? & ? & ? & ? & -> & _). reflexivity.
Qed.

Lemma fetchData_releases (m : Machine) :
  loading (view (snd (fetchData query m))) = false.
Proof.
  destruct (fetchData_run m) as (? & ? & ? & ? & -> & _). reflexivity.
Qed.

Lemma fetchData_queries (m : Machine) :
  queries (trace (snd (fetchData query m))) =
  (page (pagination (view m)), pageSize (pagination (view m)))
    :: queries (trace m).
Proof.
  destruct (fetchData_run m) as (? & ? & ? & errors & -> & Hq & _). cbn.
  rewrite queries_app, Hq. reflexivity.
Qed.

Lemma fetchData_deletions (m : Machine) :
  deletions (trace (snd (fetchData query m))) = deletions (trace m).
Proof.
  destruct (fetchData_run m) as (? & ? & ? & errors & -> & _ & Hd). cbn.
  rewrite deletions_app, Hd. reflexivity.
Qed.

Lemma fetchData_cursor (m : Machine) :
  page (pagination (view (snd (fetchData query m)))) =
    page (pagination (view m))
  /\ pageSize (pagination (view (snd (fetchData query m)))) =
    pageSize (pagination (view m)).
Proof.
  destruct (fetchData_run m) as (? & ? & ? & ? & -> & _). split; reflexivity.
Qed.

(** The run on a well-formed response. *)
Lemma fetchData_success (m : Machine) (res : Response) (data : JsValue)
  (records : list JsValue) (total_count total_pages : Z) :
  fst (requested query m) = Normal res ->
  ok res = true ->
  json res = Normal data ->
  well_formed_envelope data records total_count total_pages ->
  fetchData query m =
    (Normal tt,
     {| view :=
          {| localShow := localShow (view m);
             tableData := JsArray records;
             loading := false;
             checkedRowKeys := checkedRowKeys (view m);
             pagination :=
               {| page := page (pagination (view m));
                  pageSize := pageSize (pagination (view m));
                  total := JsNumber total_count;
                  pageCount := JsNumber total_pages |} |};
        server := snd (requested query m);
        trace :=
          QueryUserQaRecord (page (pagination (view m)))
            (pageSize (pagination (view m))) :: trace m |}).
Proof.
  intros Hq Hok Hjson Hwf.
  destruct data as [| | | | | |fields]; try contradiction.
  cbn in Hwf.
  destruct (own_property "data" fields) as [inner|] eqn:Hdata;
    try contradiction.
  destruct inner as [| | | | | |inner]; try contradiction.
  destruct Hwf as (Hr & Hc & Hp).
  unfold requested in *. unfold_machine. cbn.
  destruct (query _ _ _) as [r s']. cbn in Hq. subst r. cbn.
  rewrite Hok. cbn. rewrite Hjson. cbn. rewrite Hdata. cbn.
  rewrite Hr, Hc, Hp. cbn.
  destruct (Z.eqb_spec total_count 0) as [->|];
    destruct (Z.eqb_spec total_pages 0) as [->|]; reflexivity.
Qed.

(** The run on a failed fetch. *)
Lemma fetchData_failure (m : Machine) :
  FetchFailure (fst (requested query m)) ->
  exists errors,
    fetchData query m =
      (Normal tt,
       {| view :=
            {| localShow := localShow (view m);
               tableData := JsArray [];
               loading := false;
               checkedRowKeys := checkedRowKeys (view m);
               pagination :=
                 {| page := page (pagination (view m));
                    pageSize := pageSize (pagination (view m));
                    total := JsNumber 0;
                    pageCount := JsNumber 0 |} |};
          server := snd (requested query m);
          trace :=
            errors ++
            QueryUserQaRecord (page (pagination (view m)))
              (pageSize (pagination (view m))) :: trace m |})
      /\ exists message argument, errors = [ConsoleError message argument].
Proof.
  unfold requested. unfold_machine. cbn.
  destruct (query _ _ _) as [r s']. cbn. intros H.
  inversion H as [e He | res Hok He | res e Hok Hjson He
                 | res data Hok Hjson Hmiss He]; subst r; cbn.
  - eexists [_]. split; [reflexivity | eauto].
  - rewrite Hok. cbn. eexists [_]. split; [reflexivity | eauto].
  - rewrite Hok. cbn. rewrite Hjson. cbn.
    eexists [_]. split; [reflexivity | eauto].
  - rewrite Hok. cbn. rewrite Hjson. cbn.
    destruct data as [| | b | n | s | items | fields]; cbn;
      try (eexists [_]; split; [reflexivity | eauto]).
    + destruct b; cbn; eexists [_]; (split; [reflexivity | eauto]).
    + destruct (Z.eqb_spec n 0) as [->|]; cbn; eexists [_];
        (split; [reflexivity | eauto]).
    + destruct (String.eqb_spec s "") as [->|]; cbn; eexists [_];
        (split; [reflexivity | eauto]).
    + cbn in Hmiss.
      destruct (own_property "data" fields) as [d|]; cbn.
      * rewrite Hmiss. cbn. eexists [_]. split; [reflexivity | eauto].
      * eexists [_]. split; [reflexivity | eauto].
Qed.

(** *** [fetchData] *)

(** C1: when the query returns an ok response whose body is a
    well-formed envelope, [fetchData] returns with [tableData], [total]
    and [pageCount] set to the records, [total_count] and [total_pages]
    of the body, and with the loading flag false. *)
Theorem fetchData_assigns_response (m : Machine) (res : Response)
  (data : JsValue) (records : list JsValue) (total_count total_pages : Z) :
  fst (requested query m) = Normal res ->
  ok res = true ->
  json res = Normal data ->
  well_formed_envelope data records total_count total_pages ->
  fst (fetchData query m) = Normal tt
  /\ tableData (view (snd (fetchData query m))) = JsArray records
  /\ total (pagination (view (snd (fetchData query m)))) =
       JsNumber total_count
  /\ pageCount (pagination (view (snd (fetchData query m)))) =
       JsNumber total_pages
  /\ loading (view (snd (fetchData query m))) = false.
Proof.
  intros Hq Hok Hjson Hwf.
  rewrite (fetchData_success m res data records total_count total_pages
             Hq Hok Hjson Hwf).
  repeat split.
Qed.

(** C2: when the fetch fails (the call is rejected, the status is not ok,
    the body cannot be read or has no data envelope), [fetchData] returns
    without throwing, with [tableData] empty, both counts zero and the
    loading flag false; and on every path whatsoever it returns without
    throwing and with the loading flag false. *)
Theorem fetchData_absorbs_failure (m : Machine) :
  FetchFailure (fst (requested query m)) ->
  fst (fetchData query m) = Normal tt
  /\ tableData (view (snd (fetchData query m))) = JsArray []
  /\ total (pagination (view (snd (fetchData query m)))) = JsNumber 0
  /\ pageCount (pagination (view (snd (fetchData query m)))) = JsNumber 0
  /\ loading (view (snd (fetchData query m))) = false
  /\ (forall m0 : Machine,
        fst (fetchData query m0) = Normal tt
        /\ loading (view (snd (fetchData query m0))) = false).
Proof.
  intros H. destruct (fetchData_failure m H) as (errors & -> & _).
  repeat split.
  - apply fetchData_returns.
  - apply fetchData_releases.
Qed.

(** C7, as amended: after a fetch of a page [>= 1] with a page size
    [> 0] that succeeds with a well-formed envelope of at most [pageSize]
    records, [tableData] has as many rows as the response has records,
    hence at most [pageSize]. *)
Theorem fetchData_rows_within_pageSize (m : Machine) (res : Response)
  (data : JsValue) (records : list JsValue) (total_count total_pages : Z) :
  (1 <= page (pagination (view m)))%Z ->
  (0 < pageSize (pagination (view m)))%Z ->
  fst (requested query m) = Normal res ->
  ok res = true ->
  json res = Normal data ->
  well_formed_envelope data records total_count total_pages ->
  (Z.of_nat (List.length records) <= pageSize (pagination (view m)))%Z ->
  array_length (tableData (view (snd (fetchData query m)))) =
    Some (List.length records)
  /\ (Z.of_nat (List.length records) <=
      pageSize (pagination (view (snd (fetchData query m)))))%Z.
Proof.
  intros _ _ Hq Hok Hjson Hwf Hlen.
  rewrite (fetchData_success m res data records total_count total_pages
             Hq Hok Hjson Hwf).
  cbn. split; [reflexivity | exact Hlen].
Qed.

(** *** The handlers *)

Lemma handlePageSizeChange_run (newPageSize : Z) (m : Machine) :
  handlePageSizeChange query newPageSize m =
  (Normal tt, snd (fetchData query (resized newPageSize m))).
Proof.
  unfold handlePageSizeChange, bind, modify_view, not_awaited, resized.
  cbn -[fetchData].
  match goal with |- context [fetchData query ?x] =>
    destruct (fetchData query x) end.
  reflexivity.
Qed.

(** C4: whatever the page was, [handlePageSizeChange] issues one query,
    for page 1 with the new page size: it is [fetchData] run from the
    state in which the page size is the new one and the page is 1, and
    page and page size are still so when it ends. *)
Theorem handlePageSizeChange_fetches_first_page
  (newPageSize : Z) (m : Machine) :
  snd (handlePageSizeChange query newPageSize m) =
    snd (fetchData query (resized newPageSize m))
  /\ page (pagination (view (resized newPageSize m))) = 1%Z
  /\ pageSize (pagination (view (resized newPageSize m))) = newPageSize
  /\ queries (trace (snd (handlePageSizeChange query newPageSize m))) =
       (1%Z, newPageSize) :: queries (trace m)
  /\ page (pagination (view (snd (handlePageSizeChange query newPageSize m))))
       = 1%Z
  /\ pageSize
       (pagination (view (snd (handlePageSizeChange query newPageSize m))))
       = newPageSize.
Proof.
  rewrite handlePageSizeChange_run. cbn [snd].
  rewrite fetchData_queries.
  destruct (fetchData_cursor (resized newPageSize m)) as [-> ->].
  repeat split.
Qed.

Lemma deleteSelectedData_run (m : Machine) :
  deleteSelectedData query delete m =
  match checkedRowKeys (view m) with
  | [] => (Normal tt, m)
  | _ :: _ =>
      match fst (delete (checkedRowKeys (view m)) (server m)) with
      | Normal res =>
          if ok res
          then (Normal tt, snd (fetchData query (after_delete delete m)))
          else (Normal tt, after_delete delete m)
      | Throw e => (Throw e, after_delete delete m)
      end
  end.
Proof.
  unfold deleteSelectedData, bind, get_view, await_delete, not_awaited, ret,
    after_delete.
  destruct m as [st srv tr]. cbn -[fetchData].
  destruct (checkedRowKeys st) as [|k keys]; cbn -[fetchData];
    [reflexivity|].
  destruct (delete (k :: keys) srv) as [[res|e] srv']; cbn -[fetchData];
    [|reflexivity].
  destruct (ok res); [|reflexivity].
  match goal with |- context [fetchData query ?x] =>
    destruct (fetchData query x) end.
  reflexivity.
Qed.

(** C5: with nothing checked, [deleteSelectedData] returns at once and
    the machine (component, server and trace) is as before.  With rows
    checked it makes one delete call, with the checked keys; if that call
    succeeds it goes on as [fetchData] from the state as it is, so the one
    query made is for the current page and page size; if it fails, no
    query is made and the component is as before. *)
Theorem deleteSelectedData_spec (m : Machine) :
  (List.length (checkedRowKeys (view m)) = 0%nat ->
   deleteSelectedData query delete m = (Normal tt, m))
  /\ ((0 < List.length (checkedRowKeys (view m)))%nat ->
      deletions (trace (snd (deleteSelectedData query delete m))) =
        checkedRowKeys (view m) :: deletions (trace m)
      /\ (delete_succeeded
            (fst (delete (checkedRowKeys (view m)) (server m))) = true ->
          snd (deleteSelectedData query delete m) =
            snd (fetchData query (after_delete delete m))
          /\ queries (trace (snd (deleteSelectedData query delete m))) =
               (page (pagination (view m)), pageSize (pagination (view m)))
                 :: queries (trace m)
          /\ page (pagination (view (snd (deleteSelectedData query delete m))))
               = page (pagination (view m)))
      /\ (delete_succeeded
            (fst (delete (checkedRowKeys (view m)) (server m))) = false ->
          queries (trace (snd (deleteSelectedData query delete m))) =
            queries (trace m)
          /\ view (snd (deleteSelectedData query delete m)) = view m)).
Proof.
  rewrite deleteSelectedData_run. split.
  - intros H. apply length_zero_iff_nil in H. rewrite H. reflexivity.
  - intros Hsel.
    destruct (checkedRowKeys (view m)) as [|k keys] eqn:Hkeys;
      [cbn in Hsel; lia|].
    assert (Hview : view (after_delete delete m) = view m) by reflexivity.
    assert (Htrace : trace (after_delete delete m) =
                     DeleteUserRecord (k :: keys) :: trace m).
    { unfold after_delete. rewrite Hkeys. reflexivity. }
    unfold delete_succeeded.
    destruct (fst (delete (k :: keys) (server m))) as [res|e];
      [destruct (ok res)|]; cbn [snd].
    + split; [|split; [intros _|discriminate]].
      * rewrite fetchData_deletions, Htrace. reflexivity.
      * split; [reflexivity|].
        rewrite fetchData_queries, Htrace.
        destruct (fetchData_cursor (after_delete delete m)) as [-> _].
        rewrite Hview. split; reflexivity.
    + split; [|split; [discriminate|intros _]].
      * rewrite Htrace. reflexivity.
      * rewrite Htrace. split; reflexivity.
    + split; [|split; [discriminate|intros _]].
      * rewrite Htrace. reflexivity.
      * rewrite Htrace. split; reflexivity.
Qed.

(** C9: [close] sets [localShow] to false, emits [update:show] with
    false and sets the page to 1; the rows and the checked keys are as
    before. *)
Theorem close_keeps_rows_and_selection
  (m : Machine (Server := Server)) :
  fst (close m) = Normal tt
  /\ localShow (view (snd (close m))) = false
  /\ page (pagination (view (snd (close m)))) = 1%Z
  /\ tableData (view (snd (close m))) = tableData (view m)
  /\ checkedRowKeys (view (snd (close m))) = checkedRowKeys (view m)
  /\ trace (snd (close m)) = EmitUpdateShow false :: trace m.
Proof. repeat split. Qed.

End Facts.

(** *** Runs on concrete collaborators *)

(** Scenario B of the specification. *)
Lemma fetchData_assigns_response_witness :
  fst (fetchData empty_query fresh) = Normal tt
  /\ tableData (view (snd (fetchData empty_query fresh))) = JsArray []
  /\ total (pagination (view (snd (fetchData empty_query fresh)))) =
       JsNumber 0
  /\ pageCount (pagination (view (snd (fetchData empty_query fresh)))) =
       JsNumber 0
  /\ loading (view (snd (fetchData empty_query fresh))) = false.
Proof.
  apply (fetchData_assigns_response empty_query fresh
           (ok_response (envelope [] 0 0)) (envelope [] 0 0) [] 0 0).
  - reflexivity.
  - reflexivity.
  - reflexivity.
  - cbn. repeat split.
Defined.

(** Scenario C of the specification. *)
Lemma fetchData_absorbs_failure_witness :
  FetchFailure (fst (requested refusing_query fresh))
  /\ fst (fetchData refusing_query fresh) = Normal tt
  /\ tableData (view (snd (fetchData refusing_query fresh))) = JsArray []
  /\ total (pagination (view (snd (fetchData refusing_query fresh)))) =
       JsNumber 0
  /\ pageCount (pagination (view (snd (fetchData refusing_query fresh)))) =
       JsNumber 0
  /\ loading (view (snd (fetchData refusing_query fresh))) = false.
Proof.
  assert (H : FetchFailure (fst (requested refusing_query fresh))).
  { apply status_not_ok. reflexivity. }
  split; [exact H|].
  destruct (fetchData_absorbs_failure refusing_query fresh H)
    as (Hret & Hrows & Ht & Hp & Hl & _).
  repeat split; assumption.
Defined.

(** C7, counterexample: a server that answers the query for page 1 with
    page size 2 by a well-formed envelope of three records.  The fetch
    succeeds and [tableData] has three rows, more than the page size. *)
Lemma fetchData_rows_exceed_pageSize :
  (1 <= page (pagination (opened 2)))%Z
  /\ (0 < pageSize (pagination (opened 2)))%Z
  /\ fst (requested unpaged_query (on_unit_server (opened 2))) =
       Normal (ok_response (envelope three_records 3 2))
  /\ well_formed_envelope (envelope three_records 3 2) three_records 3 2
  /\ fst (fetchData unpaged_query (on_unit_server (opened 2))) = Normal tt
  /\ array_length
       (tableData (view (snd (fetchData unpaged_query
                                (on_unit_server (opened 2)))))) =
       Some 3%nat
  /\ pageSize (pagination (view (snd (fetchData unpaged_query
                                        (on_unit_server (opened 2)))))) =
       2%Z
  /\ ~ (Z.of_nat 3 <= 2)%Z.
Proof.
  cbn. repeat split; try reflexivity; lia.
Qed.

Lemma fetchData_rows_within_pageSize_witness :
  array_length
    (tableData (view (snd (fetchData paged_query
                             (on_records (opened 2) three_records))))) =
    Some 2%nat
  /\ (Z.of_nat 2 <=
      pageSize (pagination (view (snd (fetchData paged_query
                                        (on_records (opened 2)
                                           three_records))))))%Z.
Proof.
  apply (fetchData_rows_within_pageSize paged_query
           (on_records (opened 2) three_records)
           (ok_response (envelope (firstn 2 three_records) 3 2))
           (envelope (firstn 2 three_records) 3 2)
           (firstn 2 three_records) 3 2).
  - cbn. lia.
  - cbn. lia.
  - reflexivity.
  - reflexivity.
  - reflexivity.
  - cbn. repeat split.
  - cbn. lia.
Defined.

(** Nothing checked; one row checked and the delete accepted; one row
    checked and the delete refused. *)
Lemma deleteSelectedData_spec_witness :
  deleteSelectedData empty_query accepting_delete fresh = (Normal tt, fresh)
  /\ deletions (trace (snd (deleteSelectedData empty_query accepting_delete
                              (on_unit_server one_checked)))) =
       [[JsNumber 7]]
  /\ queries (trace (snd (deleteSelectedData empty_query accepting_delete
                            (on_unit_server one_checked)))) = [(3%Z, 8%Z)]
  /\ queries (trace (snd (deleteSelectedData empty_query refusing_delete
                            (on_unit_server one_checked)))) = []
  /\ view (snd (deleteSelectedData empty_query refusing_delete
                  (on_unit_server one_checked))) = one_checked.
Proof.
  assert (Hsel : (0 < List.length (checkedRowKeys
                                     (view (on_unit_server one_checked))))%nat)
    by (cbn; lia).
  split; [|split; [|split]].
  - apply (proj1 (deleteSelectedData_spec empty_query accepting_delete
                    fresh)).
    reflexivity.
  - apply (proj1 (proj2 (deleteSelectedData_spec empty_query
                           accepting_delete (on_unit_server one_checked))
                    Hsel)).
  - apply (proj1 (proj2 (proj2 (deleteSelectedData_spec empty_query
                                  accepting_delete
                                  (on_unit_server one_checked))
                           Hsel))
             eq_refl).
  - apply (proj2 (proj2 (proj2 (deleteSelectedData_spec empty_query
                                  refusing_delete
                                  (on_unit_server one_checked))
                           Hsel))
             eq_refl).
Defined.

(** Scenario D of the specification: on page 3, the page size is set to
    20. *)
Example resize_on_third_page :
  queries (trace (snd (handlePageSizeChange empty_query 20
                         (on_unit_server (set_page 3 (opened 8)))))) =
  [(1%Z, 20%Z)].
Proof. reflexivity. Qed.

End TableModalFacts.

(** ** Further facts about the chat composer *)
Module ComposerMore.
Import Composer ComposerSession.

Lemma existsb_negb_forallb (f : N -> bool) (s : JsText) :
  existsb (fun c => negb (f c)) s = negb (forallb f s).
Proof.
  induction s as [|c s IH]; cbn; [reflexivity|].
  rewrite IH. destruct (f c); reflexivity.
Qed.

Lemma blank_iff (s : JsText) :
  text_is_empty (trim s) = true <-> forallb is_white_space s = true.
Proof.
  rewrite <- ComposerFacts.trim_blank.
  destruct (trim s); cbn; split; congruence.
Qed.

(** What [handleEnter] does, by cases. *)
Lemma handleEnter_cases (e : option KeyboardEvent) (st : State) :
  (handleEnter e st = (st, [])
   /\ (shift_held e = true \/ text_is_empty (trim (inputValue st)) = true))
  \/ (handleEnter e st =
        ({| inputValue := []; selectedMode := selectedMode st |},
         [ {| text := inputValue st;
              mode := mode_or_default (selectedMode st) |} ])
      /\ shift_held e = false
      /\ text_is_empty (trim (inputValue st)) = false).
Proof.
  unfold handleEnter.
  destruct (shift_held e); [left; auto|].
  destruct (text_is_empty (trim (inputValue st))); [left; auto|].
  right. auto.
Qed.

(** X1: [handleEnter] emits exactly when the shift key is not held and
    the text holds a code unit that is not white space; it never emits
    more than one record. *)
Theorem handleEnter_emits_iff (e : option KeyboardEvent) (st : State) :
  (snd (handleEnter e st) <> [] <->
   shift_held e = false
   /\ existsb (fun c => negb (is_white_space c)) (inputValue st) = true)
  /\ (List.length (snd (handleEnter e st)) <= 1)%nat.
Proof.
  rewrite existsb_negb_forallb, negb_true_iff.
  destruct (handleEnter_cases e st) as [[-> H] | (-> & Hs & Ht)]; cbn.
  - split; [|lia]. split; [congruence|]. intros [Hs Hb].
    destruct H as [H|H]; [congruence|].
    apply blank_iff in H. congruence.
  - split; [|lia]. split; [|discriminate]. intros _. split; [exact Hs|].
    destruct (forallb is_white_space (inputValue st)) eqn:Hb;
      [|reflexivity].
    apply blank_iff in Hb. congruence.
Qed.

(** X2: once [handleEnter] has emitted, a second call emits nothing and
    changes nothing, whatever its event: the text it would send is
    gone. *)
Theorem handleEnter_not_twice
  (e1 e2 : option KeyboardEvent) (st : State) :
  snd (handleEnter e1 st) <> [] ->
  handleEnter e2 (fst (handleEnter e1 st)) = (fst (handleEnter e1 st), []).
Proof.
  destruct (handleEnter_cases e1 st) as [[-> _] | (-> & _ & _)]; cbn.
  - congruence.
  - intros _. unfold handleEnter. cbn. destruct (shift_held e2); reflexivity.
Qed.

Lemma handleEnter_not_twice_witness :
  handleEnter None (fst (handleEnter None (Examples.typed "hi"))) =
  (fst (handleEnter None (Examples.typed "hi")), []).
Proof.
  apply (handleEnter_not_twice None None (Examples.typed "hi")).
  cbn. discriminate.
Defined.

Lemma chip_value_not_empty (chip : Chip) :
  In chip chips -> (value chip =? "") = false.
Proof.
  cbn. intros [<- | [<- | [<- | [<- | []]]]]; reflexivity.
Qed.

(** X3: after a click on any of the four chips, a submission carries the
    tag of that chip, and the chip is still selected afterwards. *)
Theorem chip_mode_submitted
  (chip : Chip) (e : option KeyboardEvent) (st : State) :
  In chip chips ->
  shift_held e = false ->
  text_is_empty (trim (inputValue st)) = false ->
  handleEnter e (handleChipClick chip st) =
    ({| inputValue := []; selectedMode := Some chip |},
     [ {| text := inputValue st; mode := value chip |} ]).
Proof.
  intros Hin Hs Ht.
  rewrite ComposerFacts.handleEnter_submits by assumption.
  cbn. rewrite (chip_value_not_empty chip Hin). reflexivity.
Qed.

Lemma chip_mode_submitted_witness :
  handleEnter None
    (handleChipClick
       {| icon := "i-hugeicons:search-02"; label := "深度搜索";
          value := "REPORT_QA"; color := "#8b5cf6" |}
       (Examples.typed "report")) =
  ({| inputValue := [];
      selectedMode :=
        Some {| icon := "i-hugeicons:search-02"; label := "深度搜索";
                value := "REPORT_QA"; color := "#8b5cf6" |} |},
   [ {| text := inputValue (Examples.typed "report");
        mode := "REPORT_QA" |} ]).
Proof.
  apply (chip_mode_submitted
           {| icon := "i-hugeicons:search-02"; label := "深度搜索";
              value := "REPORT_QA"; color := "#8b5cf6" |}
           None (Examples.typed "report")).
  - cbn. right. right. right. left. reflexivity.
  - reflexivity.
  - reflexivity.
Defined.

(** *** Sequences of events *)

(** What one event does: it emits nothing and keeps the text, or stores a
    typed text, or is a submission by [handleEnter]. *)
Lemma dispatch_cases (a : Action) (st : State) :
  (snd (dispatch a st) = []
   /\ inputValue (fst (dispatch a st)) = inputValue st
   /\ (mode_known st -> mode_known (fst (dispatch a st))))
  \/ (exists v, a = Typed v /\ dispatch a st = (update_value v st, []))
  \/ (exists e, dispatch a st = handleEnter e st).
Proof.
  destruct a as [v | i | | shift caret | shift]; cbn.
  - right. left. eauto.
  - left. unfold mode_known.
    destruct (selectedMode st) eqn:Hm; cbn.
    + rewrite Hm. auto.
    + destruct (nth_error chips i) as [chip|] eqn:Hi; cbn.
      * repeat split. intros _. exact (nth_error_In chips i Hi).
      * rewrite Hm. auto.
  - left. unfold mode_known.
    destruct (selectedMode st) eqn:Hm; cbn; [auto|].
    rewrite Hm. auto.
  - right. right. rewrite ComposerFacts.press_enter_is_handleEnter. eauto.
  - right. right. eauto.
Qed.

Lemma dispatch_mode_known (a : Action) (st : State) :
  mode_known st -> mode_known (fst (dispatch a st)).
Proof.
  intros H.
  destruct (dispatch_cases a st) as [(_ & _ & Hk) | [(v & _ & ->) | [e ->]]].
  - auto.
  - exact H.
  - destruct (handleEnter_cases e st) as [[-> _] | (-> & _)]; exact H.
Qed.

Lemma mode_or_default_known (st : State) :
  mode_known st -> In (mode_or_default (selectedMode st)) (map value chips).
Proof.
  unfold mode_known, mode_or_default.
  destruct (selectedMode st) as [chip|]; [|intros _; cbn; auto].
  intros H. rewrite (chip_value_not_empty chip H).
  apply in_map. exact H.
Qed.

(** X4: whatever the user does, starting with no mode or with one of the
    chips selected, every record emitted carries one of the four tags
    COMMON_QA, DATABASE_QA, FILEDATA_QA and REPORT_QA. *)
Theorem run_emits_known_modes
  (actions : list Action) (st : State) (sub : Submission) :
  mode_known st ->
  In sub (snd (run actions st)) ->
  In (mode sub) ["COMMON_QA"; "DATABASE_QA"; "FILEDATA_QA"; "REPORT_QA"].
Proof.
  revert st. induction actions as [|a rest IH]; intros st Hk; cbn.
  - intros [].
  - pose proof (dispatch_mode_known a st Hk) as Hk1.
    destruct (dispatch a st) as [st1 out1] eqn:Hd.
    specialize (IH st1 Hk1).
    destruct (run rest st1) as [st2 out2]. cbn in *.
    intros Hin. apply in_app_or in Hin. destruct Hin as [Hin|Hin]; [|auto].
    destruct (dispatch_cases a st) as [(Hn & _) | [(v & _ & Hv) | [e He]]].
    + rewrite Hd in Hn. cbn in Hn. subst out1. destruct Hin.
    + rewrite Hd in Hv. injection Hv as _ ->. destruct Hin.
    + rewrite Hd in He.
      destruct (handleEnter_cases e st) as [[Hc _] | (Hc & _)];
        rewrite Hc in He; injection He as _ ->; cbn in Hin.
      * destruct Hin.
      * destruct Hin as [<- | []]. cbn.
        apply (mode_or_default_known st Hk).
Qed.

Lemma run_emits_known_modes_witness :
  In (mode {| text := text_of_ascii "q"; mode := "FILEDATA_QA" |})
     ["COMMON_QA"; "DATABASE_QA"; "FILEDATA_QA"; "REPORT_QA"].
Proof.
  apply (run_emits_known_modes
           [ChipClicked 2; Typed (text_of_ascii "q"); SendClicked false]
           initial).
  - exact I.
  - cbn. left. reflexivity.
Defined.

(** X5: every text emitted in a run is a text that was typed (or the
    text the run started with), as it was typed, and it is not blank. *)
Theorem run_emits_typed_text
  (actions : list Action) (st : State) (sub : Submission) :
  In sub (snd (run actions st)) ->
  (text sub = inputValue st \/ In (text sub) (typed_values actions))
  /\ existsb (fun c => negb (is_white_space c)) (text sub) = true.
Proof.
  revert st. induction actions as [|a rest IH]; intros st; cbn.
  - intros [].
  - destruct (dispatch a st) as [st1 out1] eqn:Hd.
    specialize (IH st1).
    destruct (run rest st1) as [st2 out2]. cbn in *.
    intros Hin. apply in_app_or in Hin.
    destruct (dispatch_cases a st)
      as [(Hn & Ht & _) | [(v & -> & Hv) | [e He]]].
    + rewrite Hd in Hn, Ht. cbn in Hn, Ht. subst out1.
      destruct Hin as [[]|Hin]. destruct (IH Hin) as [[H|H] Hb].
      * split; [left; congruence | exact Hb].
      * split; [right|exact Hb].
        destruct a; cbn; auto.
    + rewrite Hd in Hv. injection Hv as -> ->.
      destruct Hin as [[]|Hin]. destruct (IH Hin) as [[H|H] Hb];
        (split; [right; cbn; auto | exact Hb]).
    + rewrite Hd in He.
      assert (Ha : typed_values (a :: rest) = typed_values rest
                   \/ exists v, typed_values (a :: rest) =
                                v :: typed_values rest).
      { destruct a; cbn; eauto. }
      assert (Hsub : In (text sub) (typed_values rest) ->
                     In (text sub) (typed_values (a :: rest))).
      { destruct Ha as [->|[v ->]]; cbn; auto. }
      destruct (handleEnter_cases e st) as [[Hc _] | (Hc & _ & Hne)];
        rewrite Hc in He; injection He as -> ->.
      * destruct Hin as [[]|Hin]. destruct (IH Hin) as [[H|H] Hb];
          (split; [auto | exact Hb]).
      * destruct Hin as [[<- | []]|Hin].
        -- cbn. split; [left; reflexivity|].
           rewrite existsb_negb_forallb, negb_true_iff.
           destruct (forallb is_white_space (inputValue st)) eqn:Hb;
             [|reflexivity].
           apply blank_iff in Hb. congruence.
        -- destruct (IH Hin) as [[H|H] Hb]; cbn in H.
           ++ exfalso. rewrite H in Hb. cbn in Hb. discriminate.
           ++ split; [auto | exact Hb].
Qed.

Lemma run_emits_typed_text_witness :
  (text {| text := text_of_ascii " q "; mode := "COMMON_QA" |} =
     inputValue initial
   \/ In (text {| text := text_of_ascii " q "; mode := "COMMON_QA" |})
        (typed_values [Typed (text_of_ascii " q "); EnterPressed false 3]))
  /\ existsb (fun c => negb (is_white_space c))
       (text {| text := text_of_ascii " q "; mode := "COMMON_QA" |}) = true.
Proof.
  apply (run_emits_typed_text
           [Typed (text_of_ascii " q "); EnterPressed false 3] initial).
  cbn. left. reflexivity.
Defined.

Lemma run_length (actions : list Action) (st : State) :
  (List.length (snd (run actions st)) <=
   (if text_is_empty (trim (inputValue st)) then 0 else 1)
   + List.length (typed_values actions))%nat.
Proof.
  revert st. induction actions as [|a rest IH]; intros st.
  - cbn. lia.
  - cbn [run].
    assert (Ha : (List.length (typed_values rest) <=
                  List.length (typed_values (a :: rest)))%nat).
    { destruct a; cbn; lia. }
    destruct (dispatch a st) as [st1 out1] eqn:Hd.
    specialize (IH st1).
    destruct (run rest st1) as [st2 out2]. cbn [fst snd] in *.
    rewrite length_app.
    destruct (dispatch_cases a st)
      as [(Hn & Ht & _) | [(v & -> & Hv) | [e He]]].
    + rewrite Hd in Hn, Ht. cbn [fst snd] in Hn, Ht. subst out1.
      rewrite Ht in IH. cbn [List.length].
      destruct (text_is_empty (trim (inputValue st))); lia.
    + rewrite Hd in Hv. injection Hv as -> ->.
      cbn [update_value inputValue typed_values List.length] in *.
      destruct (text_is_empty (trim v));
        destruct (text_is_empty (trim (inputValue st))); lia.
    + rewrite Hd in He.
      destruct (handleEnter_cases e st) as [[Hc _] | (Hc & _ & Hne)];
        rewrite Hc in He; injection He as -> ->.
      * cbn [List.length].
        destruct (text_is_empty (trim (inputValue st))); lia.
      * rewrite Hne. cbn in IH. cbn [List.length]. lia.
Qed.

(** X6: a text is sent at most once: starting from a blank input, a run
    emits no more records than texts were typed. *)
Theorem run_sends_each_text_once (actions : list Action) (st : State) :
  text_is_empty (trim (inputValue st)) = true ->
  (List.length (snd (run actions st)) <=
   List.length (typed_values actions))%nat.
Proof.
  intros H. pose proof (run_length actions st) as Hl.
  rewrite H in Hl. exact Hl.
Qed.

Lemma run_sends_each_text_once_witness :
  (List.length
     (snd (run [Typed (text_of_ascii "q"); SendClicked false;
                EnterPressed false 0; SendClicked false] initial)) <=
   List.length
     (typed_values [Typed (text_of_ascii "q"); SendClicked false;
                    EnterPressed false 0; SendClicked false]))%nat.
Proof.
  apply (run_sends_each_text_once
           [Typed (text_of_ascii "q"); SendClicked false;
            EnterPressed false 0; SendClicked false] initial).
  reflexivity.
Defined.

End ComposerMore.

(** ** Further facts about the record-management dialog *)
Module TableModalMore.
Import TableModal DialogSession Columns Examples.

Lemma errors_app (a b : list Effect) :
  errors (a ++ b) = errors a ++ errors b.
Proof.
  induction a as [|e a IH]; cbn; [reflexivity|].
  destruct e; cbn; rewrite IH; reflexivity.
Qed.

Lemma shows_app (a b : list Effect) :
  shows (a ++ b) = shows a ++ shows b.
Proof.
  induction a as [|e a IH]; cbn; [reflexivity|].
  destruct e; cbn; rewrite IH; reflexivity.
Qed.

(** [a || b] is defined as soon as [b] is. *)
Lemma defined_js_or (a b : JsValue) :
  defined b = true -> defined (if truthy a then a else b) = true.
Proof.
  intros H. destruct a as [| | [] | n | s | |]; cbn; try assumption;
    try reflexivity.
  - destruct (n =? 0)%Z; cbn; [assumption | reflexivity].
  - destruct (s =? ""); cbn; [assumption | reflexivity].
Qed.

Section Facts.

Context {Server : Type}.
Variable query : Z -> Z -> Server -> Completion Response * Server.
Variable delete : list JsValue -> Server -> Completion Response * Server.

(** *** [fetchData] *)

(** Every run of [fetchData], with what it leaves in the rows, the counts
    and the trace. *)
Lemma fetchData_shape (m : Machine) :
  exists rows count pageTotal logged,
    fetchData query m =
      (Normal tt,
       {| view :=
            {| localShow := localShow (view m);
               tableData := rows;
               loading := false;
               checkedRowKeys := checkedRowKeys (view m);
               pagination :=
                 {| page := page (pagination (view m));
                    pageSize := pageSize (pagination (view m));
                    total := count; pageCount := pageTotal |} |};
          server := snd (requested query m);
          trace :=
            logged ++
            QueryUserQaRecord (page (pagination (view m)))
              (pageSize (pagination (view m))) :: trace m |})
    /\ queries logged = [] /\ deletions logged = [] /\ shows logged = []
    /\ (List.length logged <= 1)%nat
    /\ defined rows = true /\ defined count = true
    /\ defined pageTotal = true.
Proof.
  unfold_machine. cbn.
  destruct (query _ _ _) as [[res|e] s']; cbn.
  2: { eexists _, _, _, [_]. split; [reflexivity|]. cbn. repeat split. lia. }
  split_cases; cbn;
  first [ eexists _, _, _, []; split; [reflexivity|]
        | eexists _, _, _, [_]; split; [reflexivity|] ];
  cbn; repeat split; try lia; try (apply defined_js_or; reflexivity).
Qed.

(** X7: [fetchData] writes only the rows, the two counts and the loading
    flag: [localShow], the checked keys, the page and the page size are
    as before, on every path.  It makes one query and no delete call, and
    emits nothing. *)
Theorem fetchData_frame (m : Machine) :
  localShow (view (snd (fetchData query m))) = localShow (view m)
  /\ checkedRowKeys (view (snd (fetchData query m))) =
       checkedRowKeys (view m)
  /\ page (pagination (view (snd (fetchData query m)))) =
       page (pagination (view m))
  /\ pageSize (pagination (view (snd (fetchData query m)))) =
       pageSize (pagination (view m))
  /\ queries (trace (snd (fetchData query m))) =
       (page (pagination (view m)), pageSize (pagination (view m)))
         :: queries (trace m)
  /\ deletions (trace (snd (fetchData query m))) = deletions (trace m)
  /\ shows (trace (snd (fetchData query m))) = shows (trace m).
Proof.
  destruct (fetchData_shape m)
    as (? & ? & ? & logged & -> & Hq & Hd & Hs & _).
  cbn. rewrite TableModalFacts.queries_app, TableModalFacts.deletions_app,
    shows_app, Hq, Hd, Hs.
  repeat split.
Qed.

(** X8: after [fetchData], on every path, the rows and both counts are
    neither [undefined] nor [null]: each is what the body gave, or the
    default. *)
Theorem fetchData_values_defined (m : Machine) :
  defined (tableData (view (snd (fetchData query m)))) = true
  /\ defined (total (pagination (view (snd (fetchData query m))))) = true
  /\ defined (pageCount (pagination (view (snd (fetchData query m))))) =
       true.
Proof.
  destruct (fetchData_shape m)
    as (? & ? & ? & ? & -> & _ & _ & _ & _ & Hr & Hc & Hp).
  cbn. auto.
Qed.

(** The run on a body whose [data] is truthy, whatever else it holds. *)
Lemma fetchData_truthy_envelope (m : Machine) (res : Response)
  (fields : list (string * JsValue)) (d : JsValue) :
  fst (requested query m) = Normal res ->
  ok res = true ->
  json res = Normal (JsObject fields) ->
  own_property "data" fields = Some d ->
  truthy d = true ->
  fetchData query m =
    (Normal tt,
     {| view :=
          {| localShow := localShow (view m);
             tableData := js_or (read d "records") (JsArray []);
             loading := false;
             checkedRowKeys := checkedRowKeys (view m);
             pagination :=
               {| page := page (pagination (view m));
                  pageSize := pageSize (pagination (view m));
                  total := js_or (read d "total_count") (JsNumber 0);
                  pageCount := js_or (read d "total_pages") (JsNumber 0) |}
          |};
        server := snd (requested query m);
        trace :=
          QueryUserQaRecord (page (pagination (view m)))
            (pageSize (pagination (view m))) :: trace m |}).
Proof.
  intros Hq Hok Hjson Hdata Ht.
  unfold requested in *. unfold read. unfold_machine. cbn.
  destruct (query _ _ _) as [r s']. cbn in Hq. subst r. cbn.
  rewrite Hok. cbn. rewrite Hjson. cbn. rewrite Hdata. cbn.
  destruct d as [| | b | n | s | items | inner]; cbn in Ht;
    try discriminate; cbn.
  - subst b. reflexivity.
  - rewrite Ht. reflexivity.
  - rewrite Ht. reflexivity.
  - reflexivity.
  - destruct (own_property "records" inner),
      (own_property "total_count" inner),
      (own_property "total_pages" inner); reflexivity.
Qed.

(** X9: when the body has a truthy [data], [fetchData] takes from it
    what is there and the default for the rest: the rows are
    [data.records] or, if that is missing or falsy, the empty list; each
    count is the field or, if that is missing or falsy, zero.  Nothing is
    logged and nothing is thrown, even if [data] is not an object. *)
Theorem fetchData_defaults (m : Machine) (res : Response)
  (fields : list (string * JsValue)) (d : JsValue) :
  fst (requested query m) = Normal res ->
  ok res = true ->
  json res = Normal (JsObject fields) ->
  own_property "data" fields = Some d ->
  truthy d = true ->
  fst (fetchData query m) = Normal tt
  /\ tableData (view (snd (fetchData query m))) =
       js_or (read d "records") (JsArray [])
  /\ total (pagination (view (snd (fetchData query m)))) =
       js_or (read d "total_count") (JsNumber 0)
  /\ pageCount (pagination (view (snd (fetchData query m)))) =
       js_or (read d "total_pages") (JsNumber 0)
  /\ errors (trace (snd (fetchData query m))) = errors (trace m).
Proof.
  intros Hq Hok Hjson Hdata Ht.
  rewrite (fetchData_truthy_envelope m res fields d Hq Hok Hjson Hdata Ht).
  repeat split.
Qed.

(** X10: what [fetchData] logs when the fetch fails: the error thrown,
    if the call is rejected or the body cannot be read; the status, if it
    is not ok; the body, if it has no data envelope.  One message each
    time. *)
Theorem fetchData_logs (m : Machine) :
  (forall e,
     fst (requested query m) = Throw e ->
     errors (trace (snd (fetchData query m))) =
       ("Error fetching data:", e) :: errors (trace m))
  /\ (forall res,
        fst (requested query m) = Normal res ->
        ok res = false ->
        errors (trace (snd (fetchData query m))) =
          ("API request failed with status:", JsNumber (status res))
            :: errors (trace m))
  /\ (forall res e,
        fst (requested query m) = Normal res ->
        ok res = true ->
        json res = Throw e ->
        errors (trace (snd (fetchData query m))) =
          ("Error fetching data:", e) :: errors (trace m))
  /\ (forall res data,
        fst (requested query m) = Normal res ->
        ok res = true ->
        json res = Normal data ->
        missing_data_envelope data ->
        errors (trace (snd (fetchData query m))) =
          ("Unexpected data format:", data) :: errors (trace m)).
Proof.
  unfold requested. unfold_machine. cbn.
  destruct (query _ _ _) as [r s']. cbn.
  split; [|split; [|split]].
  - intros e ->. reflexivity.
  - intros res -> Hok. cbn. rewrite Hok. reflexivity.
  - intros res e -> Hok Hjson. cbn. rewrite Hok. cbn. rewrite Hjson.
    reflexivity.
  - intros res data -> Hok Hjson Hmiss. cbn. rewrite Hok. cbn.
    rewrite Hjson. cbn.
    destruct data as [| | b | n | s | items | fields]; cbn;
      try reflexivity.
    + destruct b; reflexivity.
    + destruct (Z.eqb_spec n 0) as [->|]; reflexivity.
    + destruct (String.eqb_spec s "") as [->|]; reflexivity.
    + cbn in Hmiss.
      destruct (own_property "data" fields) as [d|]; cbn.
      * rewrite Hmiss. reflexivity.
      * reflexivity.
Qed.

(** X11: what [fetchData] leaves in the component depends on the
    response and on the fields it does not write, and on nothing else:
    rows, counts and loading flag of before never show through. *)
Theorem fetchData_overwrites (m1 m2 : Machine) :
  localShow (view m1) = localShow (view m2) ->
  checkedRowKeys (view m1) = checkedRowKeys (view m2) ->
  page (pagination (view m1)) = page (pagination (view m2)) ->
  pageSize (pagination (view m1)) = pageSize (pagination (view m2)) ->
  fst (requested query m1) = fst (requested query m2) ->
  view (snd (fetchData query m1)) = view (snd (fetchData query m2)).
Proof.
  destruct m1 as [[ls1 td1 ld1 ck1 [p1 ps1 t1 pc1]] s1 tr1].
  destruct m2 as [[ls2 td2 ld2 ck2 [p2 ps2 t2 pc2]] s2 tr2].
  cbn. intros -> -> -> ->.
  unfold requested. unfold_machine. cbn.
  destruct (query p2 ps2 s1) as [r1 s1'].
  destruct (query p2 ps2 s2) as [r2 s2'].
  cbn. intros ->.
  destruct r2 as [res|e]; cbn; [|reflexivity].
  split_cases; reflexivity.
Qed.

(** *** The handlers *)

Lemma fetchData_keys (m : Machine) :
  checkedRowKeys (view (snd (fetchData query m))) = checkedRowKeys (view m)
  /\ localShow (view (snd (fetchData query m))) = localShow (view m).
Proof.
  destruct (fetchData_shape m) as (? & ? & ? & ? & -> & _).
  split; reflexivity.
Qed.

Lemma fetchData_shows (m : Machine) :
  shows (trace (snd (fetchData query m))) = shows (trace m).
Proof.
  destruct (fetchData_shape m) as (? & ? & ? & ? & -> & _ & _ & Hs & _).
  cbn. rewrite shows_app, Hs. reflexivity.
Qed.

Lemma fetchData_settled (m : Machine) :
  settled (view (snd (fetchData query m))).
Proof.
  destruct (fetchData_shape m)
    as (? & ? & ? & ? & -> & _ & _ & _ & _ & Hr & Hc & Hp).
  unfold settled. cbn. auto.
Qed.

Lemma handlePageChange_run (p : Z) (m : Machine) :
  handlePageChange query p m =
  (Normal tt,
   snd (fetchData query
          {| view := set_page p (view m);
             server := server m;
             trace := trace m |})).
Proof.
  unfold handlePageChange, bind, modify_view, not_awaited.
  cbn -[fetchData].
  match goal with |- context [fetchData query ?x] =>
    destruct (fetchData query x) end.
  reflexivity.
Qed.

Lemma watch_show_run (newVal : bool) (m : Machine) :
  watch_show query newVal m =
  if Bool.eqb newVal (localShow (view m)) then (Normal tt, m)
  else if newVal then
    (Normal tt,
     snd (fetchData query
            {| view := set_localShow true (view m);
               server := server m;
               trace := trace m |}))
  else
    (Normal tt,
     {| view := set_localShow false (view m);
        server := server m;
        trace := trace m |}).
Proof.
  unfold watch_show, bind, get_view, modify_view, not_awaited, ret.
  destruct m as [st srv tr]. cbn -[fetchData].
  destruct (Bool.eqb newVal (localShow st)); cbn -[fetchData];
    [reflexivity|].
  destruct newVal; cbn -[fetchData]; [|reflexivity].
  match goal with |- context [fetchData query ?x] =>
    destruct (fetchData query x) end.
  reflexivity.
Qed.

(** X12: [handlePageChange] stores the page it is given and makes one
    query, for that page with the page size as it is; page and page size
    are these when it ends. *)
Theorem handlePageChange_fetches_page (p : Z) (m : Machine) :
  queries (trace (snd (handlePageChange query p m))) =
    (p, pageSize (pagination (view m))) :: queries (trace m)
  /\ page (pagination (view (snd (handlePageChange query p m)))) = p
  /\ pageSize (pagination (view (snd (handlePageChange query p m)))) =
       pageSize (pagination (view m))
  /\ checkedRowKeys (view (snd (handlePageChange query p m))) =
       checkedRowKeys (view m).
Proof.
  rewrite handlePageChange_run. cbn [snd].
  rewrite TableModalFacts.fetchData_queries.
  match goal with |- context [fetchData query ?x] =>
    destruct (TableModalFacts.fetchData_cursor query x) as [-> ->];
    destruct (fetchData_keys x) as [-> _]
  end.
  repeat split.
Qed.

(** X13: the watcher on [props.show].  A value equal to [localShow]
    changes nothing and fetches nothing.  [true] on a closed dialog opens
    it and fetches the page the cursor is on, which is not reset here.
    [false] on an open dialog closes it without a fetch and without
    touching the page. *)
Theorem watch_show_cases (m : Machine) :
  (forall newVal,
     newVal = localShow (view m) ->
     watch_show query newVal m = (Normal tt, m))
  /\ (localShow (view m) = false ->
      localShow (view (snd (watch_show query true m))) = true
      /\ queries (trace (snd (watch_show query true m))) =
           (page (pagination (view m)), pageSize (pagination (view m)))
             :: queries (trace m))
  /\ (localShow (view m) = true ->
      watch_show query false m =
        (Normal tt,
         {| view := set_localShow false (view m);
            server := server m;
            trace := trace m |})).
Proof.
  split; [|split].
  - intros newVal ->. rewrite watch_show_run.
    rewrite Bool.eqb_reflx. reflexivity.
  - intros H. rewrite watch_show_run, H. cbn [Bool.eqb snd].
    rewrite TableModalFacts.fetchData_queries.
    match goal with |- context [fetchData query ?x] =>
      destruct (fetchData_keys x) as [_ ->]
    end.
    split; reflexivity.
  - intros H. rewrite watch_show_run, H. reflexivity.
Qed.

(** X14: closing and opening again: after [close], the watcher firing
    with [true] fetches page 1, with the page size as it was, whatever
    page the dialog was on. *)
Theorem reopen_fetches_first_page (m : Machine) :
  queries (trace (snd (watch_show query true (snd (close m))))) =
    (1%Z, pageSize (pagination (view m))) :: queries (trace m)
  /\ localShow (view (snd (watch_show query true (snd (close m))))) = true.
Proof.
  rewrite watch_show_run. cbn [close Bool.eqb snd].
  unfold close, bind, modify_view, log. cbn -[fetchData].
  rewrite TableModalFacts.fetchData_queries.
  match goal with |- context [fetchData query ?x] =>
    destruct (fetchData_keys x) as [_ ->]
  end.
  split; reflexivity.
Qed.

Lemma deleteSelectedData_deletions (m : Machine) :
  (0 < List.length (checkedRowKeys (view m)))%nat ->
  deletions (trace (snd (deleteSelectedData query delete m))) =
    checkedRowKeys (view m) :: deletions (trace m).
Proof.
  intros Hsel. rewrite TableModalFacts.deleteSelectedData_run.
  destruct (checkedRowKeys (view m)) as [|k keys] eqn:Hkeys;
    [cbn in Hsel; lia|].
  assert (Htrace : trace (after_delete delete m) =
                   DeleteUserRecord (k :: keys) :: trace m).
  { unfold after_delete. rewrite Hkeys. reflexivity. }
  destruct (fst (delete (k :: keys) (server m))) as [res|e];
    [destruct (ok res)|]; cbn [snd].
  - rewrite TableModalFacts.fetchData_deletions, Htrace. reflexivity.
  - rewrite Htrace. reflexivity.
  - rewrite Htrace. reflexivity.
Qed.

Lemma deleteSelectedData_keys (m : Machine) :
  checkedRowKeys (view (snd (deleteSelectedData query delete m))) =
  checkedRowKeys (view m).
Proof.
  rewrite TableModalFacts.deleteSelectedData_run.
  destruct (checkedRowKeys (view m)) as [|k keys] eqn:Hkeys;
    [cbn; exact Hkeys|].
  destruct (fst (delete (k :: keys) (server m))) as [res|e];
    [destruct (ok res)|]; cbn [snd].
  - destruct (fetchData_keys (after_delete delete m)) as [-> _].
    exact Hkeys.
  - exact Hkeys.
  - exact Hkeys.
Qed.

(** X15: the keys sent to the delete call are the ones of the last
    [handleCheck]: an earlier selection is replaced, not added to. *)
Theorem handleCheck_then_delete (earlier keys : list JsValue) (m : Machine) :
  (0 < List.length keys)%nat ->
  deletions
    (trace (snd (deleteSelectedData query delete
                   (snd (handleCheck keys (snd (handleCheck earlier m)))))))
  = keys :: deletions (trace m).
Proof.
  intros H. rewrite deleteSelectedData_deletions; cbn; [reflexivity|exact H].
Qed.

(** X16: [deleteSelectedData] never clears the selection, not even when
    the delete succeeds: the checked keys are as before on every path, so
    a second call sends the same keys once more. *)
Theorem deleteSelectedData_keeps_selection (m : Machine) :
  checkedRowKeys (view (snd (deleteSelectedData query delete m))) =
    checkedRowKeys (view m)
  /\ ((0 < List.length (checkedRowKeys (view m)))%nat ->
      deletions
        (trace (snd (deleteSelectedData query delete
                       (snd (deleteSelectedData query delete m))))) =
        checkedRowKeys (view m) :: checkedRowKeys (view m)
          :: deletions (trace m)).
Proof.
  split; [apply deleteSelectedData_keys|].
  intros H.
  rewrite deleteSelectedData_deletions;
    rewrite deleteSelectedData_keys; [|exact H].
  rewrite deleteSelectedData_deletions by exact H. reflexivity.
Qed.

(** X17: a rejected delete call is not caught: [deleteSelectedData]
    throws the error of the call, unlike [fetchData], with the component
    as it was and no query made. *)
Theorem deleteSelectedData_rejected (m : Machine) (e : JsValue) :
  (0 < List.length (checkedRowKeys (view m)))%nat ->
  fst (delete (checkedRowKeys (view m)) (server m)) = Throw e ->
  fst (deleteSelectedData query delete m) = Throw e
  /\ view (snd (deleteSelectedData query delete m)) = view m
  /\ queries (trace (snd (deleteSelectedData query delete m))) =
       queries (trace m).
Proof.
  intros Hsel He. rewrite TableModalFacts.deleteSelectedData_run.
  destruct (checkedRowKeys (view m)) as [|k keys] eqn:Hkeys;
    [cbn in Hsel; lia|].
  rewrite He. cbn. repeat split.
Qed.

(** *** Sequences of events *)

(** The machine after one event. *)
Lemma dispatch_run (a : Action) (m : Machine) :
  snd (dispatch query delete a m) =
  match a with
  | ShowChanged newVal =>
      if Bool.eqb newVal (localShow (view m)) then m
      else if newVal
           then snd (fetchData query (with_view (set_localShow true) m))
           else with_view (set_localShow false) m
  | ModalShow value => with_view (set_localShow value) m
  | AfterLeave =>
      {| view := set_page 1 (set_localShow false (view m));
         server := server m;
         trace := EmitUpdateShow false :: trace m |}
  | Checked rowKeys => with_view (set_checkedRowKeys rowKeys) m
  | DeleteClicked =>
      match checkedRowKeys (view m) with
      | [] => m
      | _ :: _ =>
          if delete_succeeded
               (fst (delete (checkedRowKeys (view m)) (server m)))
          then snd (fetchData query (after_delete delete m))
          else after_delete delete m
      end
  | PageUpdated p =>
      snd (fetchData query
             (with_view (fun st => set_page p (set_page p st)) m))
  | PageSizeUpdated ps =>
      snd (fetchData query
             (with_view
                (fun st => set_page 1 (set_pageSize ps (set_pageSize ps st)))
                m))
  end.
Proof.
  destruct a as [newVal | value | | rowKeys | | p | ps];
    cbn [dispatch].
  - rewrite watch_show_run.
    destruct (Bool.eqb newVal (localShow (view m))); [reflexivity|].
    destruct newVal; reflexivity.
  - reflexivity.
  - reflexivity.
  - reflexivity.
  - rewrite TableModalFacts.deleteSelectedData_run.
    destruct (checkedRowKeys (view m)); [reflexivity|].
    unfold delete_succeeded.
    destruct (fst (delete _ (server m))) as [res|e]; [|reflexivity].
    destruct (ok res); reflexivity.
  - unfold bind, modify_view. cbn -[handlePageChange].
    rewrite handlePageChange_run. reflexivity.
  - unfold bind, modify_view. cbn -[handlePageSizeChange].
    rewrite TableModalFacts.handlePageSizeChange_run. reflexivity.
Qed.

Ltac after_fetch :=
  match goal with
  | |- context [fetchData query ?x] =>
      let Ht := fresh "Ht" in
      pose proof (fetchData_settled x) as Ht;
      rewrite ?(TableModalFacts.fetchData_queries query x),
        ?(TableModalFacts.fetchData_deletions query x),
        ?(fetchData_shows x),
        ?(proj1 (TableModalFacts.fetchData_cursor query x)),
        ?(proj2 (TableModalFacts.fetchData_cursor query x)),
        ?(proj1 (fetchData_keys x))
  end.

(** What one event can do to the invariants of a run. *)
Lemma dispatch_step (a : Action) (m : Machine) :
  (settled (view m) -> settled (view (snd (dispatch query delete a m))))
  /\ (List.length (queries (trace (snd (dispatch query delete a m)))) <=
      S (List.length (queries (trace m))))%nat
  /\ (deletions (trace (snd (dispatch query delete a m))) =
        deletions (trace m)
      \/ (deletions (trace (snd (dispatch query delete a m))) =
            checkedRowKeys (view m) :: deletions (trace m)
          /\ (0 < List.length (checkedRowKeys (view m)))%nat))
  /\ (checkedRowKeys (view (snd (dispatch query delete a m))) =
        checkedRowKeys (view m)
      \/ a = Checked (checkedRowKeys (view (snd (dispatch query delete a m)))))
  /\ (page (pagination (view (snd (dispatch query delete a m)))) =
        page (pagination (view m))
      \/ page (pagination (view (snd (dispatch query delete a m)))) = 1%Z
      \/ a = PageUpdated
               (page (pagination (view (snd (dispatch query delete a m))))))
  /\ (shows (trace (snd (dispatch query delete a m))) = shows (trace m)
      \/ shows (trace (snd (dispatch query delete a m))) =
           false :: shows (trace m)).
Proof.
  rewrite dispatch_run.
  destruct a as [newVal | value | | rowKeys | | p | ps].
  - destruct (Bool.eqb newVal (localShow (view m)));
      [|destruct newVal]; try after_fetch;
      (split;
       [ intros H;
         first [exact Ht | exact H | unfold settled in *; cbn; exact H]
       | cbn -[fetchData]; repeat split; auto; lia ]).
  - split; [intros H; unfold settled in *; cbn; exact H|].
    cbn. repeat split; auto; lia.
  - split; [intros H; unfold settled in *; cbn; exact H|].
    cbn. repeat split; auto; lia.
  - split; [intros H; unfold settled in *; cbn; exact H|].
    cbn. repeat split; auto; lia.
  - destruct (checkedRowKeys (view m)) as [|k keys] eqn:Hkeys.
    + rewrite Hkeys. split; [auto|]. repeat split; auto; lia.
    + destruct (delete_succeeded _); try after_fetch;
        (split;
         [ intros H; first [exact Ht | exact H]
         | cbn -[fetchData]; rewrite ?Hkeys; repeat split; auto; try lia;
           right; split; [reflexivity | cbn; lia] ]).
  - after_fetch. split; [intros _; exact Ht|].
    cbn -[fetchData]. repeat split; auto; lia.
  - after_fetch. split; [intros _; exact Ht|].
    cbn -[fetchData]. repeat split; auto; lia.
Qed.

(** X18: between two events the component is never left loading, and
    its rows and counts are never [undefined] or [null]: if this holds
    before a sequence of events, it holds after it, whatever the server
    answers. *)
Theorem run_settled (actions : list Action) (m : Machine) :
  settled (view m) ->
  settled (view (run query delete actions m)).
Proof.
  revert m. induction actions as [|a rest IH]; intros m H; cbn [run].
  - exact H.
  - apply IH. apply (proj1 (dispatch_step a m)). exact H.
Qed.

(** X19: no event makes more than one query: a run makes at most as many
    queries as it has events. *)
Theorem run_queries_bounded (actions : list Action) (m : Machine) :
  (List.length (queries (trace (run query delete actions m))) <=
   List.length (queries (trace m)) + List.length actions)%nat.
Proof.
  revert m. induction actions as [|a rest IH]; intros m; cbn [run].
  - cbn. lia.
  - specialize (IH (snd (dispatch query delete a m))).
    destruct (dispatch_step a m) as (_ & Hq & _).
    cbn [List.length]. lia.
Qed.

Lemma checks_cons (a : Action) (rest : list Action) (keys : list JsValue) :
  In keys (checks rest) -> In keys (checks (a :: rest)).
Proof. destruct a; cbn; auto. Qed.

(** X20: the delete call is only ever made with a list of keys that is
    not empty and that the table reported as checked (or that was
    checked when the run began). *)
Theorem run_deletions_checked
  (actions : list Action) (m : Machine) (keys : list JsValue) :
  In keys (deletions (trace (run query delete actions m))) ->
  In keys (deletions (trace m))
  \/ ((0 < List.length keys)%nat
      /\ (keys = checkedRowKeys (view m) \/ In keys (checks actions))).
Proof.
  revert m. induction actions as [|a rest IH]; intros m; cbn [run].
  - auto.
  - intros Hin. apply IH in Hin.
    destruct (dispatch_step a m) as (_ & _ & Hd & Hk & _).
    destruct Hin as [Hin | [Hlen [Hin | Hin]]].
    + destruct Hd as [Hd | [Hd Hsel]]; rewrite Hd in Hin.
      * auto.
      * destruct Hin as [<- | Hin]; auto.
    + destruct Hk as [Hk | Hk].
      * right. split; [exact Hlen|]. left. congruence.
      * right. split; [exact Hlen|]. right. rewrite Hk, Hin.
        cbn. auto.
    + right. split; [exact Hlen|]. right. apply checks_cons. exact Hin.
Qed.

Lemma pages_cons (a : Action) (rest : list Action) :
  Forall (fun p => (1 <= p)%Z) (pages (a :: rest)) ->
  Forall (fun p => (1 <= p)%Z) (pages rest)
  /\ (forall p, a = PageUpdated p -> (1 <= p)%Z).
Proof.
  destruct a; cbn; intros H; try (split; [exact H | discriminate]).
  inversion H as [|x l Hx Hl]; subst. split; [exact Hl|].
  intros q Hq. injection Hq as <-. exact Hx.
Qed.

(** X21: the page cursor stays at 1 or above, as long as the pagination
    control reports only pages at 1 or above: the component itself only
    ever sets the page to 1. *)
Theorem run_page_positive (actions : list Action) (m : Machine) :
  (1 <= page (pagination (view m)))%Z ->
  Forall (fun p => (1 <= p)%Z) (pages actions) ->
  (1 <= page (pagination (view (run query delete actions m))))%Z.
Proof.
  revert m. induction actions as [|a rest IH]; intros m Hm Hall; cbn [run].
  - exact Hm.
  - apply pages_cons in Hall. destruct Hall as [Hrest Ha].
    apply IH; [|exact Hrest].
    destruct (dispatch_step a m) as (_ & _ & _ & _ & Hp & _).
    destruct Hp as [-> | [-> | Hp]]; [exact Hm | lia | apply Ha, Hp].
Qed.

(** X22: the only value the dialog ever emits as [update:show] is
    [false]: it tells its parent that it has closed and never asks to be
    opened. *)
Theorem run_emits_only_false (actions : list Action) (m : Machine) :
  exists n : nat,
    shows (trace (run query delete actions m)) =
    repeat false n ++ shows (trace m).
Proof.
  revert m. induction actions as [|a rest IH]; intros m; cbn [run].
  - exists 0%nat. reflexivity.
  - destruct (IH (snd (dispatch query delete a m))) as [n ->].
    destruct (dispatch_step a m) as (_ & _ & _ & _ & _ & [-> | ->]).
    + exists n. reflexivity.
    + exists (S n). cbn [repeat app].
      induction n as [|n IHn]; cbn; [reflexivity | rewrite IHn; reflexivity].
Qed.

End Facts.

(** A rejected call, a refused one, an unreadable body and a body
    without envelope. *)
Lemma fetchData_logs_witness :
  errors (trace (snd (fetchData
                       (canned_query (Throw (JsString "offline")))
                       fresh))) =
    [("Error fetching data:", JsString "offline")]
  /\ errors (trace (snd (fetchData refusing_query fresh))) =
       [("API request failed with status:", JsNumber 500)]
  /\ errors (trace (snd (fetchData
                          (canned_query
                             (Normal {| ok := true; status := 200;
                                        json := Throw (JsString "bad") |}))
                          fresh))) =
       [("Error fetching data:", JsString "bad")]
  /\ errors (trace (snd (fetchData
                          (canned_query (Normal (ok_response (JsObject []))))
                          fresh))) =
       [("Unexpected data format:", JsObject [])].
Proof.
  split; [|split; [|split]].
  - apply (proj1 (fetchData_logs
                    (canned_query (Throw (JsString "offline"))) fresh)).
    reflexivity.
  - apply (proj1 (proj2 (fetchData_logs refusing_query fresh))
             error_response); reflexivity.
  - apply (proj1 (proj2 (proj2 (fetchData_logs
             (canned_query (Normal {| ok := true; status := 200;
                                      json := Throw (JsString "bad") |}))
             fresh)))
             {| ok := true; status := 200; json := Throw (JsString "bad") |});
      reflexivity.
  - apply (proj2 (proj2 (proj2 (fetchData_logs
             (canned_query (Normal (ok_response (JsObject [])))) fresh)))
             (ok_response (JsObject [])) (JsObject []));
      first [reflexivity | exact I].
Defined.

(** A body whose [data] has a total count and nothing else. *)
Lemma fetchData_defaults_witness :
  fst (fetchData count_only_query fresh) = Normal tt
  /\ tableData (view (snd (fetchData count_only_query fresh))) =
       js_or (read count_only "records") (JsArray [])
  /\ total (pagination (view (snd (fetchData count_only_query fresh)))) =
       js_or (read count_only "total_count") (JsNumber 0)
  /\ pageCount (pagination (view (snd (fetchData count_only_query fresh))))
       = js_or (read count_only "total_pages") (JsNumber 0)
  /\ errors (trace (snd (fetchData count_only_query fresh))) =
       errors (trace fresh).
Proof.
  apply (fetchData_defaults count_only_query fresh
           (ok_response (JsObject [("data", count_only)]))
           [("data", count_only)] count_only);
    reflexivity.
Defined.

Example count_only_rows :
  view (snd (fetchData count_only_query fresh)) =
  set_total (JsNumber 5) (opened 8).
Proof. reflexivity. Qed.

(** The dialog with the three records of an earlier fetch, and the dialog
    just opened: after a fetch from the empty server they show the
    same. *)
Lemma fetchData_overwrites_witness :
  view (snd (fetchData empty_query
               (on_unit_server
                  (view (snd (fetchData unpaged_query fresh)))))) =
  view (snd (fetchData empty_query fresh)).
Proof.
  apply (fetchData_overwrites empty_query
           (on_unit_server (view (snd (fetchData unpaged_query fresh))))
           fresh); reflexivity.
Defined.

(** A closed dialog on page 3 is opened; the open dialog is told to show
    again; the open dialog is told to hide. *)
Lemma watch_show_cases_witness :
  watch_show empty_query true fresh = (Normal tt, fresh)
  /\ localShow (view (snd (watch_show empty_query true
                             (on_unit_server
                                (set_page 3 (initial_state false)))))) =
       true
  /\ queries (trace (snd (watch_show empty_query true
                            (on_unit_server
                               (set_page 3 (initial_state false)))))) =
       [(3%Z, 8%Z)]
  /\ watch_show empty_query false fresh =
       (Normal tt, on_unit_server (set_localShow false (opened 8))).
Proof.
  split; [|split; [|split]].
  - apply (proj1 (watch_show_cases empty_query fresh) true). reflexivity.
  - apply (proj1 (proj2 (watch_show_cases empty_query
                           (on_unit_server
                              (set_page 3 (initial_state false)))))
             eq_refl).
  - apply (proj1 (proj2 (watch_show_cases empty_query
                           (on_unit_server
                              (set_page 3 (initial_state false)))))
             eq_refl).
  - apply (proj2 (proj2 (watch_show_cases empty_query fresh)) eq_refl).
Defined.

Lemma handleCheck_then_delete_witness :
  deletions
    (trace (snd (deleteSelectedData empty_query accepting_delete
                   (snd (handleCheck [JsNumber 2]
                           (snd (handleCheck [JsNumber 1; JsNumber 2]
                                   fresh))))))) =
  [JsNumber 2] :: deletions (trace fresh).
Proof.
  apply (handleCheck_then_delete empty_query accepting_delete
           [JsNumber 1; JsNumber 2] [JsNumber 2] fresh).
  cbn. lia.
Defined.

Lemma deleteSelectedData_keeps_selection_witness :
  deletions
    (trace (snd (deleteSelectedData empty_query accepting_delete
                   (snd (deleteSelectedData empty_query accepting_delete
                           (on_unit_server one_checked)))))) =
  checkedRowKeys (view (on_unit_server one_checked))
    :: checkedRowKeys (view (on_unit_server one_checked))
    :: deletions (trace (on_unit_server one_checked)).
Proof.
  apply (proj2 (deleteSelectedData_keeps_selection empty_query
                  accepting_delete (on_unit_server one_checked))).
  cbn. lia.
Defined.

Lemma deleteSelectedData_rejected_witness :
  fst (deleteSelectedData empty_query
         (canned_delete (Throw (JsString "offline")))
         (on_unit_server one_checked)) = Throw (JsString "offline")
  /\ view (snd (deleteSelectedData empty_query
                  (canned_delete (Throw (JsString "offline")))
                  (on_unit_server one_checked))) =
       view (on_unit_server one_checked)
  /\ queries (trace (snd (deleteSelectedData empty_query
                            (canned_delete (Throw (JsString "offline")))
                            (on_unit_server one_checked)))) =
       queries (trace (on_unit_server one_checked)).
Proof.
  apply (deleteSelectedData_rejected empty_query
           (canned_delete (Throw (JsString "offline")))
           (on_unit_server one_checked) (JsString "offline")).
  - cbn. lia.
  - reflexivity.
Defined.

(** The dialog is opened on a server that answers with status 500, a
    row is checked and deleted, and the page is changed. *)
Lemma run_settled_witness :
  settled
    (view (run refusing_query refusing_delete
             [ShowChanged true; Checked [JsNumber 7]; DeleteClicked;
              PageUpdated 2]
             (on_unit_server (initial_state false)))).
Proof.
  apply (run_settled refusing_query refusing_delete
           [ShowChanged true; Checked [JsNumber 7]; DeleteClicked;
            PageUpdated 2]
           (on_unit_server (initial_state false))).
  unfold settled. cbn. repeat split.
Defined.

Lemma run_deletions_checked_witness :
  In [JsNumber 7] (deletions (trace (on_unit_server (initial_state true))))
  \/ ((0 < List.length [JsNumber 7])%nat
      /\ ([JsNumber 7] =
            checkedRowKeys (view (on_unit_server (initial_state true)))
          \/ In [JsNumber 7]
               (checks [Checked [JsNumber 1]; Checked [JsNumber 7];
                        DeleteClicked]))).
Proof.
  apply (run_deletions_checked empty_query accepting_delete
           [Checked [JsNumber 1]; Checked [JsNumber 7]; DeleteClicked]
           (on_unit_server (initial_state true)) [JsNumber 7]).
  cbn. left. reflexivity.
Defined.

Lemma run_page_positive_witness :
  (1 <= page (pagination (view (run empty_query accepting_delete
                                  [PageUpdated 4; PageSizeUpdated 20;
                                   PageUpdated 2; AfterLeave]
                                  fresh))))%Z.
Proof.
  apply (run_page_positive empty_query accepting_delete
           [PageUpdated 4; PageSizeUpdated 20; PageUpdated 2; AfterLeave]
           fresh).
  - cbn. lia.
  - cbn. repeat constructor; lia.
Defined.

End TableModalMore.

(** ** Facts about the cells of the table *)
Module ColumnsFacts.
Import Columns.




End ColumnsFacts.
